(** * splatnet3_scraper: the token lifecycle manager

    A shallow embedding of [splatnet3_scraper/auth/token_manager.py] and of
    the [retry] decorator of [splatnet3_scraper/utils.py].

    Conventions of the embedding.
    - Time stamps ([time.time()], [Token.timestamp], [Token.expiration]) are
      binary64 floating-point numbers, as the [float] of Python: the
      primitive floats of the Standard Library, whose operations round as
      IEEE 754 prescribes.
    - A Python [dict] keyed by strings is a [gmap string _]; the sections of
      a [configparser.ConfigParser] keep the order of their options and are
      association lists.
    - A method of [TokenManager] is a computation in the monad [M]: it takes
      the state (the outside world and the manager object) and gives back a
      result or a raised exception together with the state it left behind.
      A raised exception does not roll anything back, as in Python.
    - Modules of the package that the manager imports but that are not part
      of the embedded files ([constants], [auth.nso], [auth.exceptions],
      [auth.graph_ql_queries], [requests]) are parameters of the
      development: the string constants of [TOKENS], the table
      [TOKEN_EXPIRATIONS], and one oracle per remote call, which answers
      from the history of the calls made so far. *)

From Stdlib Require Import Ascii String ZArith QArith Qabs Qround Qpower Lqa Floats.
From stdpp Require Import gmap strings list fin_maps pretty.

Local Open Scope string_scope.
Local Open Scope list_scope.

(** ** Exceptions *)

(** The exception classes the manager raises or catches.  The classes of
    [splatnet3_scraper.auth.exceptions] derive from [Exception] and are
    unrelated to one another; [OtherException] stands for anything else a
    collaborator may raise. *)
Inductive exn : Type :=
| ValueError (msg : string)
| KeyError (key : string)
| TypeError
| NintendoException (msg : string)
| SplatNetException (msg : string)
| DuplicateOptionError (section option : string)
| OtherException (cls : string).

Definition is_SplatNetException (e : exn) : bool :=
  match e with SplatNetException _ => true | _ => false end.

(** ** Binary64 numbers

    [float] is the type of the primitive binary64 numbers; [Prim2SF] gives
    the sign, the mantissa and the exponent of one. *)
Module Float.

(** The mantissa of a finite number, signed, at the exponent [ez]. *)
Definition aligned (s : bool) (m : positive) (e ez : Z) : Z :=
  cond_Zopp s (Z.pos (fst (shl_align m e ez))).


Definition SF2Q (x : spec_float) : Q :=
  match x with
  | S754_finite s m e => (inject_Z (cond_Zopp s (Z.pos m)) * 2 ^ e)%Q
  | _ => 0%Q
  end.

(** The number that a finite float stands for; 0 for the infinities and
    for NaN. *)
Definition to_Q (x : float) : Q := SF2Q (Prim2SF x).

End Float.

(** ** Built-ins of Python used by the code *)
Module Py.

(** [s.split(sep)] for a separator of one character: the parts between
    the occurrences of [sep], at least one part. *)
Fixpoint split (sep : ascii) (s : string) : list string :=
  match s with
  | EmptyString => [EmptyString]
  | String c s' =>
      if Ascii.eqb c sep then EmptyString :: split sep s'
      else match split sep s' with
           | part :: parts => String c part :: parts
           | [] => [String c EmptyString]
           end
  end.

(** The truth value of [os.environ.get(var)]: set and not empty. *)
Definition truthy (v : option string) : bool :=
  match v with
  | Some v => negb (String.eqb v "")
  | None => false
  end.

(** [s.strip()]: without the white space at both ends.  White space is
    the ASCII white space of [str.isspace]. *)
Definition isspace (c : ascii) : bool :=
  let n := nat_of_ascii c in
  ((9 <=? n)%nat && (n <=? 13)%nat) || ((28 <=? n)%nat && (n <=? 32)%nat).

Fixpoint lstrip (s : string) : string :=
  match s with
  | EmptyString => EmptyString
  | String c s' => if isspace c then lstrip s' else s
  end.

Fixpoint rstrip (s : string) : string :=
  match s with
  | EmptyString => EmptyString
  | String c s' =>
      match rstrip s' with
      | EmptyString => if isspace c then EmptyString else String c EmptyString
      | r => String c r
      end
  end.

Definition strip (s : string) : string := rstrip (lstrip s).

(** [s[n:]] *)
Fixpoint drop (n : nat) (s : string) : string :=
  match n, s with
  | O, _ => s
  | S n', String _ s' => drop n' s'
  | S _, EmptyString => EmptyString
  end.

(** [divmod(x, y)] on numbers that are not integers: the floor of the
    quotient and the remainder. *)
Definition divmod (x y : Q) : Q * Q :=
  let q := inject_Z (Qfloor (x / y)%Q) in (q, (x - q * y)%Q).

(** [c in s] for a character [c] *)
Fixpoint contains (c : ascii) (s : string) : bool :=
  match s with
  | EmptyString => false
  | String c' s' => Ascii.eqb c' c || contains c s'
  end.

End Py.

(** ** [class Token] *)

Module Token.

Record t : Type := mk {
  token : string;
  token_type : string;
  timestamp : float;
  expiration : float
}.

Section WithExpirations.
(** [constants.TOKEN_EXPIRATIONS]: seconds of validity per token type. *)
Variable TOKEN_EXPIRATIONS : gmap string float.

(** [Token.__init__]:
    [self.expiration = TOKEN_EXPIRATIONS.get(token_type, 1e10) + timestamp] *)
Definition init (token : string) (token_type : string) (timestamp : float) : t :=
  {| token := token;
     token_type := token_type;
     timestamp := timestamp;
     expiration := (default 1e10 (TOKEN_EXPIRATIONS !! token_type) + timestamp)%float |}.
End WithExpirations.

(** [Token.is_valid]: [(self.token is not None) and (self.token != "")].
    The value is a [str], so the first conjunct is always true. *)
Definition is_valid (self : t) : bool :=
  true && negb (String.eqb (token self) "").

(** [Token.time_left]: [self.expiration - time.time()]. *)
Definition time_left (self : t) (now : float) : float :=
  (expiration self - now)%float.

(** [Token.is_expired]: [self.time_left <= 0]. *)
Definition is_expired (self : t) (now : float) : bool :=
  (time_left self now <=? 0)%float.

Section WithFormat.
(** [f"{x:.0f}"] and [f"{x:.1f}"]: the decimal notation of a number with a
    fixed number of digits after the point. *)
Variable format_f : nat -> Q -> string.

(** [Token.time_left_str].  The test [time_left <= 0] is the one of
    [is_expired]; [divmod] and the comparisons after it are taken on the
    number that [time_left] stands for.  (For an infinite or undefined
    [time_left] Python's [divmod] gives NaN twice, every comparison that
    follows is false and the result is the empty string, as it is here
    with the number 0.) *)
Definition time_left_str (self : t) (now : float) : string :=
  let time_left := time_left self now in
  if (time_left <=? 0)%float then "Expired"
  else
    let '(mins, secs) := Py.divmod (Float.to_Q time_left) 60 in
    let '(hours, mins) := Py.divmod mins 60 in
    let out := "" in
    if negb (Qle_bool hours 1e5) then "basically forever"
    else
      let out := if negb (Qle_bool hours 0)
                 then String.append out (String.append (format_f 0 hours) "h ")
                 else out in
      let out := if negb (Qle_bool mins 0)
                 then String.append out (String.append (format_f 0 mins) "m ")
                 else out in
      let out := if negb (Qle_bool secs 0)
                 then String.append out (String.append (format_f 1 secs) "s")
                 else out in
      Py.strip out.
End WithFormat.

End Token.

(** ** Results, exceptions and the state monad of a method call *)

Inductive outcome (A : Type) : Type :=
| Return (a : A)
| Raise (e : exn).
Arguments Return {A} a.
Arguments Raise {A} e.

(** ** The collaborator object [NSO]

    Only the three attributes that the manager reads or assigns are kept;
    the methods of the class are oracles of the environment (below). *)
Record NSO : Type := mkNSO {
  _session_token : option string;
  _gtoken : option string;
  _user_info : option (gmap string string)
}.

(** ** The outside world *)

(** One entry per remote call attempted by the manager. *)
Inductive event : Type :=
| GetGtoken (nso : NSO)
    (* self.nso.get_gtoken(self.nso.session_token) *)
| GetBulletToken (nso : NSO)
    (* self.nso.get_bullet_token(self.nso._gtoken, self.nso._user_info) *)
| PostHomeQuery (bullet_token language : string) (user_agent : option string)
                (gtoken : string).
    (* requests.post(GRAPH_QL_REFERENCE_URL, ...) of test_tokens *)

(** A parsed INI document: section name to (option name to value). *)
Abbreviation ConfigDoc := (gmap string (gmap string string)).

Record World : Type := mkWorld {
  history : list event;
  files : gmap string ConfigDoc
}.

(** ** [class TokenManager]: the object *)
Record TokenManager_obj : Type := mkTokenManager {
  nso : NSO;
  _tokens : gmap string Token.t;
  _data : gmap string string;
  _origin : option (string * option string)
}.

Record St : Type := mkSt {
  world : World;
  self : TokenManager_obj
}.

Definition M (A : Type) : Type := St -> outcome A * St.

Definition ret {A} (a : A) : M A := fun s => (Return a, s).
Definition raise {A} (e : exn) : M A := fun s => (Raise e, s).
Definition bind {A B} (m : M A) (k : A -> M B) : M B :=
  fun s => match m s with
           | (Return a, s') => k a s'
           | (Raise e, s') => (Raise e, s')
           end.

Declare Scope py_scope.
Delimit Scope py_scope with py.
Notation "x <- m ;; k" := (bind m (fun x => k))
  (at level 100, m at next level, right associativity) : py_scope.
Notation "m ;;; k" := (bind m (fun _ => k))
  (at level 100, right associativity) : py_scope.
Local Open Scope py_scope.

Definition gets {A} (f : St -> A) : M A := fun s => (Return (f s), s).
Definition modify (f : St -> St) : M unit := fun s => (Return tt, f s).

(** [for x in l: body x], stopping at the first exception. *)
Fixpoint for_each {A} (l : list A) (body : A -> M unit) : M unit :=
  match l with
  | [] => ret tt
  | x :: l' => body x ;;; for_each l' body
  end.

(** Attribute assignments. *)
Definition set_nso (f : NSO -> NSO) (s : St) : St :=
  {| world := world s;
     self := {| nso := f (nso (self s)); _tokens := _tokens (self s);
                _data := _data (self s); _origin := _origin (self s) |} |}.
Definition set_tokens (f : gmap string Token.t -> gmap string Token.t) (s : St) : St :=
  {| world := world s;
     self := {| nso := nso (self s); _tokens := f (_tokens (self s));
                _data := _data (self s); _origin := _origin (self s) |} |}.
Definition set_data (f : gmap string string -> gmap string string) (s : St) : St :=
  {| world := world s;
     self := {| nso := nso (self s); _tokens := _tokens (self s);
                _data := f (_data (self s)); _origin := _origin (self s) |} |}.
Definition set_origin (o : option (string * option string)) (s : St) : St :=
  {| world := world s;
     self := {| nso := nso (self s); _tokens := _tokens (self s);
                _data := _data (self s); _origin := o |} |}.
Definition set_world (f : World -> World) (s : St) : St :=
  {| world := f (world s); self := self s |}.

Definition with_session_token (v : option string) (n : NSO) : NSO :=
  {| _session_token := v; _gtoken := _gtoken n; _user_info := _user_info n |}.
Definition with_gtoken (v : option string) (n : NSO) : NSO :=
  {| _session_token := _session_token n; _gtoken := v; _user_info := _user_info n |}.

Definition log_event (e : event) (w : World) : World :=
  {| history := history w ++ [e]; files := files w |}.
Definition write_file (path : string) (doc : ConfigDoc) (w : World) : World :=
  {| history := history w; files := <[path := doc]> (files w) |}.

(** ** [utils.retry] *)

(** [retry(times, exceptions)(func)]:
    [for i in range(times): try: return func() except exceptions: log]
    and then [return func()].  [catches e] is [isinstance(e, exceptions)];
    the message passed to the logger is not part of the state. *)
Fixpoint retry {A} (times : nat) (catches : exn -> bool) (func : M A) : M A :=
  match times with
  | O => func
  | S times' =>
      fun s => match func s with
               | (Return a, s') => (Return a, s')
               | (Raise e, s') =>
                   if catches e then retry times' catches func s'
                   else (Raise e, s')
               end
  end.

(** ** [configparser.ConfigParser], as far as the manager uses it

    A document is kept in parsed form.  Option names go through
    [optionxform] ([str.lower], here on the ASCII letters) when they are
    assigned; values are opaque text that the file keeps as written (value
    interpolation and the layout of the INI text are outside the model). *)
Module ConfigParser.

Definition lower_ascii (c : ascii) : ascii :=
  let n := nat_of_ascii c in
  if (65 <=? n)%nat && (n <=? 90)%nat then ascii_of_nat (n + 32) else c.

Fixpoint optionxform (s : string) : string :=
  match s with
  | EmptyString => EmptyString
  | String c s' => String (lower_ascii c) (optionxform s')
  end.

(** [config[section] = items]: the section is emptied and then filled by
    [read_dict], which is strict: two keys with the same [optionxform]
    raise [DuplicateOptionError]. *)
Fixpoint read_dict (section : string) (items : list (string * string))
         (acc : gmap string string) : outcome (gmap string string) :=
  match items with
  | [] => Return acc
  | (key, value) :: items' =>
      let key := optionxform key in
      match acc !! key with
      | Some _ => Raise (DuplicateOptionError section key)
      | None => read_dict section items' (<[key := value]> acc)
      end
  end.

Definition setitem (section : string) (items : gmap string string)
           (config : ConfigDoc) : outcome ConfigDoc :=
  match read_dict section (map_to_list items) ∅ with
  | Return sec => Return (<[section := sec]> config)
  | Raise e => Raise e
  end.

(** [config.has_section(section)] *)
Definition has_section (config : ConfigDoc) (section : string) : bool :=
  bool_decide (is_Some (config !! section)).

(** [[(option, config.get(section, option)) for option in
    config.options(section)]] *)
Definition items (config : ConfigDoc) (section : string) : list (string * string) :=
  map_to_list (default ∅ (config !! section)).

End ConfigParser.

(** ** [utils.linearize_json] *)
Module Json.

(** A JSON value as [json.load] gives it; a dict keeps the order of its
    keys. *)
#[local] Unset Elimination Schemes.
Inductive json : Type :=
| JNull
| JBool (b : bool)
| JInt (z : Z)
| JFloat (x : float)
| JStr (s : string)
| JList (items : list json)
| JDict (items : list (string * json)).
#[local] Set Elimination Schemes.

Definition is_dict (value : json) : bool :=
  match value with JDict _ => true | _ => false end.
Definition is_list (value : json) : bool :=
  match value with JList _ => true | _ => false end.

(** [linearize_json(json_data)]: the keys and the values, filled in step as
    in the source.  The argument is a dict, by its annotation and by the
    tests before the recursive calls; the model gives nothing for the other
    values. *)
Fixpoint linearize_json (json_data : json) : list string * list json :=
  match json_data with
  | JDict items =>
      (fix loop (items : list (string * json)) : list string * list json :=
         match items with
         | [] => ([], [])
         | (key, value) :: items' =>
             let '(keys, values) :=
               match value with
               | JDict _ =>
                   let '(sub_keys, sub_values) := linearize_json value in
                   (map (fun sub_key => String.append key (String.append "." sub_key))
                        sub_keys,
                    sub_values)
               | JList l =>
                   (fix loop_list (i : nat) (l : list json) : list string * list json :=
                      match l with
                      | [] => ([], [])
                      | item :: l' =>
                          let '(keys, values) :=
                            match item with
                            | JDict _ =>
                                let '(sub_keys, sub_values) := linearize_json item in
                                (map (fun sub_key =>
                                        String.append key
                                          (String.append ";"
                                             (String.append (pretty i)
                                                (String.append "." sub_key))))
                                     sub_keys,
                                 sub_values)
                            | _ =>
                                ([String.append key (String.append ";" (pretty i))],
                                 [item])
                            end in
                          let '(keys', values') := loop_list (S i) l' in
                          (keys ++ keys', values ++ values')
                      end) O l
               | _ => ([key], [value])
               end in
             let '(keys', values') := loop items' in
             (keys ++ keys', values ++ values')
         end) items
  | _ => ([], [])
  end.

(** The loops of [linearize_json] by name: what one item of a list, a
    list, one value of the dict and the items of the dict add to the keys
    and to the values. *)
Definition linearize_item (key : string) (i : nat) (item : json)
  : list string * list json :=
  match item with
  | JDict _ =>
      let '(sub_keys, sub_values) := linearize_json item in
      (map (fun sub_key =>
              String.append key
                (String.append ";" (String.append (pretty i) (String.append "." sub_key))))
           sub_keys,
       sub_values)
  | _ => ([String.append key (String.append ";" (pretty i))], [item])
  end.

Definition linearize_list (key : string) : nat -> list json -> list string * list json :=
  fix loop_list (i : nat) (l : list json) : list string * list json :=
    match l with
    | [] => ([], [])
    | item :: l' =>
        let '(keys, values) := linearize_item key i item in
        let '(keys', values') := loop_list (S i) l' in
        (keys ++ keys', values ++ values')
    end.

Definition linearize_value (key : string) (value : json) : list string * list json :=
  match value with
  | JDict _ =>
      let '(sub_keys, sub_values) := linearize_json value in
      (map (fun sub_key => String.append key (String.append "." sub_key)) sub_keys,
       sub_values)
  | JList l => linearize_list key O l
  | _ => ([key], [value])
  end.

Definition linearize_items : list (string * json) -> list string * list json :=
  fix loop (items : list (string * json)) : list string * list json :=
    match items with
    | [] => ([], [])
    | (key, value) :: items' =>
        let '(keys, values) := linearize_value key value in
        let '(keys', values') := loop items' in
        (keys ++ keys', values ++ values')
    end.

End Json.

(** ** [NSO.parse_npf_uri] of [s3s_express/nso.py] *)
Module S3SNso.

(** [uri.split("&")[1][len("session_token_code="):]]; the index raises
    [IndexError] when the split gives one part. *)
Definition parse_npf_uri (uri : string) : outcome string :=
  match Py.split "&" uri with
  | _ :: part :: _ => Return (Py.drop (String.length "session_token_code=") part)
  | _ => Raise (OtherException "IndexError")
  end.

End S3SNso.

(** ** Counting remote calls in a history *)

Definition is_GetGtoken (e : event) : bool :=
  match e with GetGtoken _ => true | _ => false end.
Definition is_GetBulletToken (e : event) : bool :=
  match e with GetBulletToken _ => true | _ => false end.
Definition is_PostHomeQuery (e : event) : bool :=
  match e with PostHomeQuery _ _ _ _ => true | _ => false end.

Definition calls (p : event -> bool) (h : list event) : nat :=
  length (List.filter p h).

(** The number of Account derivations, of Access minting calls and of
    liveness probes that a state has seen. *)
Definition gtoken_calls (s : St) : nat := calls is_GetGtoken (history (world s)).
Definition bullet_calls (s : St) : nat := calls is_GetBulletToken (history (world s)).
Definition post_calls (s : St) : nat := calls is_PostHomeQuery (history (world s)).

(** ** A test double of the environment

    Concrete constants and scripted collaborators, in the manner of the
    mocked endpoints of the test suite.  The time to live of the gtoken is
    the one of the specification's scenario. *)
Module Mock.

Definition SESSION_TOKEN : string := "session_token".
Definition GTOKEN : string := "gtoken".
Definition BULLET_TOKEN : string := "bullet_token".
Definition TOKEN_EXPIRATIONS : gmap string float :=
  {[ GTOKEN := 3600%float; BULLET_TOKEN := 7200%float ]}.
Definition version : string := "0.1.0".

Definition new_instance : NSO :=
  {| _session_token := None; _gtoken := None; _user_info := None |}.

Definition user_info : gmap string string :=
  {[ "country" := "US"; "language" := "en-US" ]}.

(** [get_gtoken] answers [value] and stores it and the user info. *)
Definition get_gtoken (value : string) (h : list event) (n : NSO) : outcome string * NSO :=
  (Return value,
   {| _session_token := _session_token n; _gtoken := Some value;
      _user_info := Some user_info |}).

(** [get_bullet_token] answers the entries of [script] in turn, one per
    call, and the empty string once the script is exhausted. *)
Definition get_bullet_token (script : list string) (h : list event) (n : NSO)
  : outcome string * NSO :=
  (Return (nth (calls is_GetBulletToken h) script ""), n).

(** The liveness probe answers with a fixed status code. *)
Definition post (status : Z) (h : list event) (bullet language : string)
           (user_agent : option string) (gtoken : string) : outcome Z :=
  Return status.

Definition time_at (now : float) (h : list event) : float := now.

Definition empty_world : World := {| history := []; files := ∅ |}.

End Mock.

(** The first argument of [add_token]: [token: str | Token]. *)
Inductive token_arg : Type :=
| Str (s : string)
| Obj (t : Token.t).

(** ** [class TokenManager]: the methods *)
Module TokenManager.
Section WithEnvironment.

(** [constants.TOKENS], [constants.TOKEN_EXPIRATIONS] and
  [splatnet3_scraper.__version__]. *)
Variables SESSION_TOKEN GTOKEN BULLET_TOKEN : string.
Variable TOKEN_EXPIRATIONS : gmap string float.
Variable __version__ : string.

(** [time.time()], as a function of the remote calls made so far: the
  clock may advance over a remote call and stands still otherwise. *)
Variable time_time : list event -> float.

(** [NSO.new_instance()]. *)
Variable NSO_new_instance : NSO.

(** The remote calls.  Each oracle sees the calls made so far and the
  collaborator object, and answers with a value or an exception and the
  collaborator object as the call left it. *)
Variable nso_get_gtoken : list event -> NSO -> outcome string * NSO.
Variable nso_get_bullet_token : list event -> NSO -> outcome string * NSO.
(** The status code of the response of [requests.post]. *)
Variable requests_post :
list event -> string -> string -> option string -> string -> outcome Z.

(** [TokenManager.__init__(nso)] *)
Definition init (nso : NSO) : TokenManager_obj :=
{| nso := nso; _tokens := ∅; _data := ∅; _origin := None |}.

(** [flag_origin(origin, data)] *)
Definition flag_origin (origin : string) (data : option string) : M unit :=
modify (set_origin (Some (origin, data))).

(** [add_token(token, token_type=None, timestamp=None)] *)
Definition add_token (token : token_arg) (token_type : option string)
         (timestamp : option float) : M unit :=
match token with
| Obj token =>
    modify (set_tokens (insert (Token.token_type token) token)) ;;;
    (if String.eqb (Token.token_type token) GTOKEN
     then modify (set_nso (with_gtoken (Some (Token.token token))))
     else ret tt) ;;;
    ret tt
| Str token =>
    match token_type with
    | None => raise (ValueError "token_type must be provided if token is a str.")
    | Some token_type =>
        timestamp <- match timestamp with
                     | None => gets (fun s => time_time (history (world s)))
                     | Some t => ret t
                     end ;;
        let token_obj := Token.init TOKEN_EXPIRATIONS token token_type timestamp in
        (if String.eqb (Token.token_type token_obj) GTOKEN
         then modify (set_nso (with_gtoken (Some (Token.token token_obj))))
         else ret tt) ;;;
        modify (set_tokens (insert token_type token_obj))
    end
end.

(** [get(token_type, full_token=True)] *)
Definition get_full (token_type : string) : M Token.t :=
token_obj <- gets (fun s => _tokens (self s) !! token_type) ;;
match token_obj with
| None => raise (ValueError (String.append "Token of type "
                   (String.append token_type " not found.")))
| Some token_obj => ret token_obj
end.

(** [get(token_type)], with [full_token=False] *)
Definition get (token_type : string) : M string :=
token_obj <- get_full token_type ;;
ret (Token.token token_obj).

(** [add_session_token(token)] *)
Definition add_session_token (token : string) : M unit :=
add_token (Str token) (Some SESSION_TOKEN) None ;;;
modify (set_nso (with_session_token (Some token))).

(** [self.nso.get_gtoken(self.nso.session_token)] *)
Definition call_get_gtoken : M string :=
fun s =>
  let n := nso (self s) in
  let '(r, n') := nso_get_gtoken (history (world s)) n in
  (r, set_nso (fun _ => n') (set_world (log_event (GetGtoken n)) s)).

(** [self.nso.get_bullet_token(self.nso._gtoken, self.nso._user_info)] *)
Definition call_get_bullet_token : M string :=
fun s =>
  let n := nso (self s) in
  let '(r, n') := nso_get_bullet_token (history (world s)) n in
  (r, set_nso (fun _ => n') (set_world (log_event (GetBulletToken n)) s)).

(** [requests.post(GRAPH_QL_REFERENCE_URL, ...).status_code] *)
Definition call_post (bullet language : string) (user_agent : option string)
         (gtoken : string) : M Z :=
fun s =>
  (requests_post (history (world s)) bullet language user_agent gtoken,
   set_world (log_event (PostHomeQuery bullet language user_agent gtoken)) s).

(** [generate_gtoken()] *)
Definition generate_gtoken : M unit :=
tokens <- gets (fun s => _tokens (self s)) ;;
match tokens !! SESSION_TOKEN with
| None => raise (ValueError "Session token must be set before generating a gtoken.")
| Some _ =>
    gtoken <- call_get_gtoken ;;
    add_token (Str gtoken) (Some GTOKEN) None ;;;
    user_info <- gets (fun s => _user_info (nso (self s))) ;;
    match user_info with
    | None (* TypeError *) =>
        raise (NintendoException "Unable to get user info. Gtoken may be invalid.")
    | Some user_info =>
        match user_info !! "country", user_info !! "language" with
        | Some country, Some language =>
            modify (set_data (insert "country" country)) ;;;
            modify (set_data (insert "language" language))
        | _, _ (* KeyError *) =>
            raise (NintendoException "Unable to get user info. Gtoken may be invalid.")
        end
    end
end.

(** The body of [generate_bullet_token], before decoration. *)
Definition generate_bullet_token_func : M unit :=
tokens <- gets (fun s => _tokens (self s)) ;;
match tokens !! SESSION_TOKEN with
| None => raise (ValueError "Session token must be set before generating a bullet token.")
| Some _ =>
    user_info <- gets (fun s => _user_info (nso (self s))) ;;
    (if negb (bool_decide (is_Some (tokens !! GTOKEN)))
        || negb (bool_decide (is_Some user_info))
     then generate_gtoken else ret tt) ;;;
    bullet_token <- call_get_bullet_token ;;
    add_token (Str bullet_token) (Some BULLET_TOKEN) None ;;;
    bullet <- get_full BULLET_TOKEN ;;
    if true && negb (Token.is_valid bullet)
    then raise (SplatNetException
                  "Bullet token was unable to be generated. This is likely due to SplatNet 3 being down. Please try again later.")
    else ret tt
end.

(** [@retry(times=1, exceptions=SplatNetException)] *)
Definition generate_bullet_token : M unit :=
retry 1 is_SplatNetException generate_bullet_token_func.

(** [generate_all_tokens()] *)
Definition generate_all_tokens : M unit :=
generate_gtoken ;;; generate_bullet_token.

(** [try: body except ValueError: handler] *)
Definition try_except_ValueError {A} (body handler : M A) : M A :=
fun s => match body s with
         | (Raise (ValueError _), s') => handler s'
         | r => r
         end.

(** [token_is_valid(token_type)] *)
Definition token_is_valid (token_type : string) : M bool :=
try_except_ValueError
  (token <- get_full token_type ;; ret (Token.is_valid token))
  (ret false).

(** [self._data["language"]] and the like *)
Definition data_getitem (key : string) : M string :=
v <- gets (fun s => _data (self s) !! key) ;;
match v with
| None => raise (KeyError key)
| Some v => ret v
end.

(** [test_tokens(user_agent=None)].  [self.get(...)] returns a string, so
  the test [is None] of the first statement never succeeds. *)
Definition test_tokens (user_agent : option string) : M unit :=
_ <- get SESSION_TOKEN ;;
gtoken_ok <- token_is_valid GTOKEN ;;
(if negb gtoken_ok then generate_gtoken else ret tt) ;;;
bullet_ok <- token_is_valid BULLET_TOKEN ;;
(if negb bullet_ok then generate_bullet_token else ret tt) ;;;
bullet <- get BULLET_TOKEN ;;
language <- data_getitem "language" ;;
gtoken <- get GTOKEN ;;
status_code <- call_post bullet language user_agent gtoken ;;
if negb (Z.eqb status_code 200) then generate_all_tokens else ret tt.

(** A class method: runs [body] on a manager made by [cls(nso)] and
  returns that manager. *)
Definition construct (body : M unit) (w : World) : outcome TokenManager_obj * World :=
match body {| world := w; self := init NSO_new_instance |} with
| (Return _, s) => (Return (self s), world s)
| (Raise e, s) => (Raise e, world s)
end.

(** [from_session_token(session_token)] *)
Definition from_session_token (session_token : string) :
World -> outcome TokenManager_obj * World :=
construct (add_session_token session_token ;;; flag_origin "session_token" None).

(** The two loops and the branch of [from_config_file], on the manager
  under construction.  [config.read(path)] leaves the parser empty when
  the file does not exist. *)
Definition from_config_file_body (path : string) : M unit :=
config <- gets (fun s => default ∅ (files (world s) !! path)) ;;
flag_origin "config_file" (Some path) ;;;
if negb (ConfigParser.has_section config "tokens")
then raise (ValueError "Config file does not have a 'tokens' section.")
else
  for_each (ConfigParser.items config "tokens") (fun '(option, token) =>
    (if String.eqb option SESSION_TOKEN
     then modify (set_nso (with_session_token (Some token)))
     else if String.eqb option GTOKEN
     then modify (set_nso (with_gtoken (Some token)))
     else ret tt) ;;;
    add_token (Str token) (Some option) None) ;;;
  if negb (ConfigParser.has_section config "data")
  then generate_all_tokens
  else
    for_each (ConfigParser.items config "data") (fun '(option, value) =>
      modify (set_data (insert option value))) ;;;
    test_tokens None.

(** [from_config_file(path)] *)
Definition from_config_file (path : string) :
World -> outcome TokenManager_obj * World :=
construct (from_config_file_body path).

Definition lift {A} (r : outcome A) : M A := fun s => (r, s).

(** [save(path=None)] *)
Definition save (path : option string) : M unit :=
tokens <- gets (fun s => _tokens (self s)) ;;
let out_tokens := Token.token <$> tokens in
config <- lift (ConfigParser.setitem "tokens" out_tokens ∅) ;;
data <- gets (fun s => _data (self s)) ;;
config <- lift (ConfigParser.setitem "data" data config) ;;
config <- lift (ConfigParser.setitem "metadata"
                  {[ "version" := __version__; "class" := "TokenManager" ]} config) ;;
let path := default ".splatnet3_scraper" path in
modify (set_world (write_file path config)).

(** ** The other constructors *)

(** [os.environ] and [constants.ENV_VAR_NAMES], the latter as the items of
    the dictionary in the order of its keys: token type and name of the
    variable. *)
Variable os_environ : gmap string string.
Variable ENV_VAR_NAMES : list (string * string).

(** What [json.load] reads from a text file, by path: a flat object whose
    values are strings.  Other contents are outside the model. *)
Variable json_files : gmap string (gmap string string).

(** One round of the loop of [from_env]; [for token in ENV_VAR_NAMES] with
    [ENV_VAR_NAMES[token]] goes through the items. *)
Definition from_env_round (item : string * string) : M unit :=
  let '(token, var) := item in
  let token_env := os_environ !! var in
  if String.eqb token SESSION_TOKEN then
    match token_env with
    | None => raise (ValueError "Session token environment variable not set.")
    | Some token_env =>
        modify (set_nso (with_session_token (Some token_env))) ;;;
        add_token (Str token_env) (Some token) None
    end
  else
    match token_env with
    | None => ret tt (* continue *)
    | Some token_env =>
        (if String.eqb token GTOKEN
         then modify (set_nso (with_gtoken (Some token_env)))
         else ret tt) ;;;
        add_token (Str token_env) (Some token) None
    end.

(** [from_env()], on the manager under construction. *)
Definition from_env_body : M unit :=
  for_each ENV_VAR_NAMES from_env_round ;;;
  flag_origin "env" None ;;;
  test_tokens None.

Definition from_env : World -> outcome TokenManager_obj * World :=
  construct from_env_body.

(** [language, country = data["acc_loc"].split("|")] *)
Definition unpack_acc_loc (acc_loc : string) : M unit :=
  match Py.split "|" acc_loc with
  | [language; country] =>
      modify (set_data (insert "language" language)) ;;;
      modify (set_data (insert "country" country))
  | [_] => raise (ValueError "not enough values to unpack (expected 2, got 1)")
  | _ => raise (ValueError "too many values to unpack (expected 2)")
  end.

(** [from_text_file(path)], on the manager under construction. *)
Definition from_text_file_body (path : string) : M unit :=
  match json_files !! path with
  | None => raise (OtherException "FileNotFoundError")
  | Some data =>
      match data !! "session_token" with
      | None => raise (ValueError "Session token not found in text file.")
      | Some session_token =>
          add_session_token session_token ;;;
          flag_origin "text_file" (Some path) ;;;
          (match data !! "acc_loc" with
           | Some acc_loc => unpack_acc_loc acc_loc
           | None => ret tt
           end) ;;;
          (match data !! "gtoken" with
           | Some gtoken => add_token (Str gtoken) (Some GTOKEN) None
           | None => ret tt
           end) ;;;
          (match data !! "bullettoken" with
           | Some bullettoken => add_token (Str bullettoken) (Some BULLET_TOKEN) None
           | None => ret tt
           end) ;;;
          test_tokens None
      end
  end.

Definition from_text_file (path : string) : World -> outcome TokenManager_obj * World :=
  construct (from_text_file_body path).

(** [os.path.exists(path)]: the world has a file at [path]. *)
Definition path_exists (w : World) (path : string) : bool :=
  bool_decide (is_Some (files w !! path)).

(** [load()] *)
Definition load (w : World) : outcome TokenManager_obj * World :=
  if path_exists w ".splatnet3_scraper" then from_config_file ".splatnet3_scraper" w
  else if existsb (fun '(_, var) => Py.truthy (os_environ !! var)) ENV_VAR_NAMES
  then from_env w
  else if path_exists w "tokens.ini" then from_config_file "tokens.ini" w
  else (Raise (ValueError
                 "No tokens found. Please create a .splatnet3_scraper file, set environment variables, or create a tokens.ini file."),
        w).

(** ** Definitions used in the statements

  The state that [add_token] leaves when it is given a string and a
  token type. *)
Definition added (token token_type : string) (timestamp : option float) (s : St) : St :=
let ts := match timestamp with
          | None => time_time (history (world s))
          | Some t => t
          end in
set_tokens (insert token_type (Token.init TOKEN_EXPIRATIONS token token_type ts))
  (if String.eqb token_type GTOKEN
   then set_nso (with_gtoken (Some token)) s else s).

(** The test of [generate_bullet_token] that sends it through
  [generate_gtoken] first. *)
Definition needs_gtoken (s : St) : bool :=
negb (bool_decide (is_Some (_tokens (self s) !! GTOKEN)))
|| negb (bool_decide (is_Some (_user_info (nso (self s))))).

Definition bullet_error : exn :=
SplatNetException
  "Bullet token was unable to be generated. This is likely due to SplatNet 3 being down. Please try again later.".

(** The last four statements of [generate_bullet_token]: the minting
  call, the storing of its answer and the check of the stored value. *)
Definition mint (s : St) : outcome unit * St :=
let n := nso (self s) in
let '(r, n') := nso_get_bullet_token (history (world s)) n in
let s1 := set_nso (fun _ => n') (set_world (log_event (GetBulletToken n)) s) in
match r with
| Raise e => (Raise e, s1)
| Return bullet_token =>
    let s2 := added bullet_token BULLET_TOKEN None s1 in
    if String.eqb bullet_token "" then (Raise bullet_error, s2)
    else (Return tt, s2)
end.

(** [ready_to_mint s sa]: from [s], one run of the body of
  [generate_bullet_token] reaches the minting call in state [sa],
  either at once or through a successful [generate_gtoken]. *)
Definition ready_to_mint (s sa : St) : Prop :=
is_Some (_tokens (self s) !! SESSION_TOKEN)
∧ ((needs_gtoken s = false ∧ sa = s)
   ∨ (needs_gtoken s = true ∧ generate_gtoken s = (Return tt, sa))).

(** The kind and the value that a call of [add_token] is about. *)
Definition kind_of (token : token_arg) (token_type : option string) : option string :=
match token with
| Obj t => Some (Token.token_type t)
| Str _ => token_type
end.
Definition value_of (token : token_arg) : string :=
match token with
| Obj t => Token.token t
| Str v => v
end.

(** The operations that change the keychain, and a session of them: the
  caller goes on after an operation that raised. *)
Inductive op : Type :=
| AddToken (token : token_arg) (token_type : option string) (timestamp : option float)
| AddSessionToken (token : string)
| GenerateGtoken
| GenerateBulletToken.

Definition run_op (o : op) : M unit :=
match o with
| AddToken token token_type timestamp => add_token token token_type timestamp
| AddSessionToken token => add_session_token token
| GenerateGtoken => generate_gtoken
| GenerateBulletToken => generate_bullet_token
end.

Fixpoint run_ops (l : list op) (s : St) : St :=
match l with
| [] => s
| o :: l' => run_ops l' (run_op o s).2
end.

(** Every entry of the keychain is filed under its own type. *)
Definition kind_consistent (s : St) : Prop :=
∀ k t, _tokens (self s) !! k = Some t → Token.token_type t = k.

(** An entry of [s'] is an entry of [s] or is filed under its own type. *)
Definition keeps_kinds (s s' : St) : Prop :=
∀ k t, _tokens (self s') !! k = Some t →
       _tokens (self s) !! k = Some t ∨ Token.token_type t = k.

(** One round of each loop of [from_config_file]. *)
Definition load_token (s : St) (p : string * string) : St :=
let '(option, token) := p in
added token option None
  (if String.eqb option SESSION_TOKEN
   then set_nso (with_session_token (Some token)) s
   else if String.eqb option GTOKEN
   then set_nso (with_gtoken (Some token)) s
   else s).
Definition load_data (s : St) (p : string * string) : St :=
set_data (insert p.1 p.2) s.

Definition insert_item (acc : gmap string string) (p : string * string)
: gmap string string := <[p.1 := p.2]> acc.

(** The token types and values that [from_env] finds in the environment,
    in the order of [ENV_VAR_NAMES]; and whether the variable of the Session
    token is among the unset ones. *)
Definition env_items : list (string * string) :=
  omap (fun '(token, var) => (fun v => (token, v)) <$> os_environ !! var) ENV_VAR_NAMES.
Definition session_variable_unset : bool :=
  existsb (fun '(token, var) =>
             String.eqb token SESSION_TOKEN
             && negb (bool_decide (is_Some (os_environ !! var))))
          ENV_VAR_NAMES.

(** Every type in the keychain of [s] is in the keychain of [s']. *)
Definition keeps_types (s s' : St) : Prop :=
  ∀ k, is_Some (_tokens (self s) !! k) → is_Some (_tokens (self s') !! k).

(** ** Properties *)

Lemma calls_app p (h1 h2 : list event) :
calls p (h1 ++ h2) = (calls p h1 + calls p h2)%nat.
Proof. unfold calls. by rewrite List.filter_app, length_app. Qed.

Lemma calls_snoc p (h : list event) e :
calls p (h ++ [e]) = (calls p h + if p e then 1 else 0)%nat.
Proof. rewrite calls_app. unfold calls. simpl. by destruct (p e). Qed.

Lemma add_token_str token token_type timestamp s :
add_token (Str token) (Some token_type) timestamp s
= (Return tt, added token token_type timestamp s).
Proof.
unfold add_token, added, bind, gets, ret, modify.
destruct timestamp; simpl; destruct (String.eqb token_type GTOKEN); reflexivity.
Qed.

Lemma added_world token token_type timestamp s :
world (added token token_type timestamp s) = world s.
Proof. unfold added. by destruct (String.eqb token_type GTOKEN). Qed.

Lemma added_tokens token token_type timestamp s :
_tokens (self (added token token_type timestamp s))
= <[token_type := Token.init TOKEN_EXPIRATIONS token token_type
      (match timestamp with
       | None => time_time (history (world s))
       | Some t => t
       end)]> (_tokens (self s)).
Proof. unfold added. by destruct (String.eqb token_type GTOKEN). Qed.

Lemma added_data token token_type timestamp s :
_data (self (added token token_type timestamp s)) = _data (self s).
Proof. unfold added. by destruct (String.eqb token_type GTOKEN). Qed.

Lemma added_user_info token token_type timestamp s :
_user_info (nso (self (added token token_type timestamp s)))
= _user_info (nso (self s)).
Proof. unfold added. by destruct (String.eqb token_type GTOKEN). Qed.

Lemma added_nso_ne token token_type timestamp s :
token_type ≠ GTOKEN →
nso (self (added token token_type timestamp s)) = nso (self s).
Proof.
intros Hne. unfold added.
destruct (String.eqb_spec token_type GTOKEN); [done | reflexivity].
Qed.

Lemma get_full_spec token_type s :
get_full token_type s
= match _tokens (self s) !! token_type with
  | Some t => (Return t, s)
  | None => (Raise (ValueError (String.append "Token of type "
                      (String.append token_type " not found."))), s)
  end.
Proof. unfold get_full, bind, gets, ret, raise. by destruct (_ !! _). Qed.

Lemma get_spec token_type s :
get token_type s
= match _tokens (self s) !! token_type with
  | Some t => (Return (Token.token t), s)
  | None => (Raise (ValueError (String.append "Token of type "
                      (String.append token_type " not found."))), s)
  end.
Proof.
unfold get, bind. rewrite get_full_spec. by destruct (_ !! _).
Qed.

Lemma token_is_valid_spec token_type s :
token_is_valid token_type s
= (Return match _tokens (self s) !! token_type with
          | Some t => Token.is_valid t
          | None => false
          end, s).
Proof.
unfold token_is_valid, try_except_ValueError, bind. rewrite get_full_spec.
by destruct (_ !! _).
Qed.

(** *** [generate_gtoken] *)

Lemma generate_gtoken_no_session s :
_tokens (self s) !! SESSION_TOKEN = None →
generate_gtoken s
= (Raise (ValueError "Session token must be set before generating a gtoken."), s).
Proof.
intros H. unfold generate_gtoken, bind, gets, raise. simpl. by rewrite H.
Qed.

Lemma generate_gtoken_inv s r s' :
generate_gtoken s = (r, s') →
is_Some (_tokens (self s) !! SESSION_TOKEN) →
history (world s') = history (world s) ++ [GetGtoken (nso (self s))]
∧ files (world s') = files (world s)
∧ (∀ k, is_Some (_tokens (self s) !! k) → is_Some (_tokens (self s') !! k))
∧ (r = Return tt →
   is_Some (_tokens (self s') !! GTOKEN)
   ∧ is_Some (_user_info (nso (self s')))
   ∧ is_Some (_data (self s') !! "language")).
Proof.
intros Hrun [t Ht].
unfold generate_gtoken, bind, gets, raise, ret, modify, call_get_gtoken in Hrun.
simpl in Hrun. rewrite Ht in Hrun.
destruct (nso_get_gtoken _ _) as [[g|e] n'] eqn:Hor;
  rewrite ?String.eqb_refl in Hrun; simpl in Hrun;
  repeat (case_match; simplify_eq/=); simplify_eq/=;
  (split_and!; [done | done | | try done]);
  try (intros k Hk; rewrite ?lookup_insert_is_Some'; by auto).
intros _. rewrite !lookup_insert_eq. eauto.
Qed.

Lemma generate_gtoken_calls s r s' :
generate_gtoken s = (r, s') →
calls is_GetBulletToken (history (world s')) = calls is_GetBulletToken (history (world s))
∧ calls is_PostHomeQuery (history (world s')) = calls is_PostHomeQuery (history (world s))
∧ (calls is_GetGtoken (history (world s')) ≤ calls is_GetGtoken (history (world s)) + 1)%nat
∧ (r = Return tt →
   calls is_GetGtoken (history (world s')) = (calls is_GetGtoken (history (world s)) + 1)%nat).
Proof.
intros Hrun.
destruct (_tokens (self s) !! SESSION_TOKEN) as [t|] eqn:Ht.
- apply generate_gtoken_inv in Hrun as (-> & _); [|by eauto].
  rewrite !calls_snoc. simpl. split_and!; try lia. 
- rewrite generate_gtoken_no_session in Hrun by done. simplify_eq.
  split_and!; try lia. done.
Qed.


(** *** [generate_bullet_token] *)

Lemma generate_bullet_token_func_no_session s :
_tokens (self s) !! SESSION_TOKEN = None →
generate_bullet_token_func s
= (Raise (ValueError "Session token must be set before generating a bullet token."), s).
Proof.
intros H. unfold generate_bullet_token_func, bind, gets, raise. simpl. by rewrite H.
Qed.

Lemma generate_bullet_token_func_eq s :
is_Some (_tokens (self s) !! SESSION_TOKEN) →
generate_bullet_token_func s
= match (if needs_gtoken s then generate_gtoken s else (Return tt, s)) with
  | (Return _, sa) => mint sa
  | (Raise e, sa) => (Raise e, sa)
  end.
Proof.
intros [t Ht].
unfold generate_bullet_token_func, needs_gtoken, bind, gets. simpl. rewrite Ht.
match goal with |- context [if ?b then generate_gtoken else _] =>
  destruct b end.
1: destruct (generate_gtoken s) as [[[]|e] sa]; [|done].
all: unfold mint, call_get_bullet_token, added, ret, raise, gets, modify, bind; simpl.
all: match goal with |- context [nso_get_bullet_token ?h ?n] =>
       destruct (nso_get_bullet_token h n) as [[b|e'] n'] end; simpl; [|done].
all: destruct (String.eqb BULLET_TOKEN GTOKEN); simpl.
all: rewrite get_full_spec; simpl; rewrite lookup_insert_eq.
all: unfold Token.is_valid; simpl; by destruct (String.eqb b "").
Qed.


Lemma generate_gtoken_counts s r s' :
generate_gtoken s = (r, s') →
bullet_calls s' = bullet_calls s
∧ post_calls s' = post_calls s
∧ (gtoken_calls s ≤ gtoken_calls s' ≤ gtoken_calls s + 1)%nat
∧ (r = Return tt → gtoken_calls s' = (gtoken_calls s + 1)%nat).
Proof.
intros Hrun. unfold bullet_calls, post_calls, gtoken_calls.
destruct (generate_gtoken_calls _ _ _ Hrun) as (-> & -> & H1 & H2).
split_and!; try done; try lia.
destruct (_tokens (self s) !! SESSION_TOKEN) as [t|] eqn:Ht.
- apply generate_gtoken_inv in Hrun as (-> & _); [|by eauto].
  rewrite calls_snoc. lia.
- rewrite generate_gtoken_no_session in Hrun by done. by simplify_eq.
Qed.

Lemma generate_gtoken_keeps s r s' k :
generate_gtoken s = (r, s') →
is_Some (_tokens (self s) !! k) → is_Some (_tokens (self s') !! k).
Proof.
intros Hrun Hk.
destruct (_tokens (self s) !! SESSION_TOKEN) as [t|] eqn:Ht.
- apply generate_gtoken_inv in Hrun as (_ & _ & H & _); by eauto.
- rewrite generate_gtoken_no_session in Hrun by done. by simplify_eq.
Qed.

Lemma mint_inv s r s' :
mint s = (r, s') →
history (world s') = history (world s) ++ [GetBulletToken (nso (self s))]
∧ files (world s') = files (world s)
∧ _data (self s') = _data (self s)
∧ (∀ k, is_Some (_tokens (self s) !! k) → is_Some (_tokens (self s') !! k)).
Proof.
unfold mint. intros Hrun.
destruct (nso_get_bullet_token _ _) as [[b|e] n'].
- assert (s' = added b BULLET_TOKEN None
            (set_nso (λ _, n') (set_world (log_event (GetBulletToken (nso (self s)))) s)))
    as -> by (destruct (String.eqb b ""); by simplify_eq).
  rewrite added_world, added_data, added_tokens. simpl.
  split_and!; try done.
  intros k Hk. rewrite lookup_insert_is_Some'. by auto.
- by simplify_eq.
Qed.

Lemma mint_counts s r s' :
mint s = (r, s') →
bullet_calls s' = (bullet_calls s + 1)%nat
∧ post_calls s' = post_calls s
∧ gtoken_calls s' = gtoken_calls s.
Proof.
intros Hrun. apply mint_inv in Hrun as (H & _).
unfold bullet_calls, post_calls, gtoken_calls. rewrite H, !calls_snoc. simpl. lia.
Qed.

Lemma generate_bullet_token_func_counts s r s' :
generate_bullet_token_func s = (r, s') →
(bullet_calls s ≤ bullet_calls s' ≤ bullet_calls s + 1)%nat
∧ post_calls s' = post_calls s
∧ (gtoken_calls s ≤ gtoken_calls s' ≤ gtoken_calls s + 1)%nat
∧ (r = Return tt → bullet_calls s' = (bullet_calls s + 1)%nat)
∧ (needs_gtoken s = true → r = Return tt →
   gtoken_calls s' = (gtoken_calls s + 1)%nat).
Proof.
intros Hrun.
destruct (_tokens (self s) !! SESSION_TOKEN) as [t|] eqn:Ht.
- rewrite generate_bullet_token_func_eq in Hrun by eauto.
  destruct (needs_gtoken s).
  + destruct (generate_gtoken s) as [[[]|e] sa] eqn:Hg.
    * apply generate_gtoken_counts in Hg as (? & ? & ? & Hr).
      apply mint_counts in Hrun as (? & ? & ?).
      specialize (Hr eq_refl). split_and!; try done; try lia.
    * apply generate_gtoken_counts in Hg as (? & ? & ? & Hr).
      simplify_eq. split_and!; try done; try lia.
  + apply mint_counts in Hrun as (? & ? & ?).
    split_and!; try done; try lia.
- rewrite generate_bullet_token_func_no_session in Hrun by done.
  simplify_eq. split_and!; try done; try lia.
Qed.

Lemma generate_bullet_token_func_keeps s r s' k :
generate_bullet_token_func s = (r, s') →
is_Some (_tokens (self s) !! k) → is_Some (_tokens (self s') !! k).
Proof.
intros Hrun Hk.
destruct (_tokens (self s) !! SESSION_TOKEN) as [t|] eqn:Ht.
- rewrite generate_bullet_token_func_eq in Hrun by eauto.
  destruct (needs_gtoken s).
  + destruct (generate_gtoken s) as [[[]|e] sa] eqn:Hg.
    * apply mint_inv in Hrun as (_ & _ & _ & H). apply H.
      by eapply generate_gtoken_keeps.
    * simplify_eq. by eapply generate_gtoken_keeps.
  + apply mint_inv in Hrun as (_ & _ & _ & H). by apply H.
- rewrite generate_bullet_token_func_no_session in Hrun by done. by simplify_eq.
Qed.

(** The decorated method is the body, run again once when it raised a
  [SplatNetException]. *)
Lemma generate_bullet_token_eq s :
generate_bullet_token s
= match generate_bullet_token_func s with
  | (Return a, s') => (Return a, s')
  | (Raise e, s') =>
      if is_SplatNetException e then generate_bullet_token_func s'
      else (Raise e, s')
  end.
Proof. reflexivity. Qed.

Lemma generate_bullet_token_counts s r s' :
generate_bullet_token s = (r, s') →
(bullet_calls s ≤ bullet_calls s' ≤ bullet_calls s + 2)%nat
∧ post_calls s' = post_calls s
∧ (gtoken_calls s ≤ gtoken_calls s')%nat
∧ (r = Return tt → (bullet_calls s + 1 ≤ bullet_calls s')%nat).
Proof.
rewrite generate_bullet_token_eq. intros Hrun.
destruct (generate_bullet_token_func s) as [[[]|e] s1] eqn:H1.
- simplify_eq. apply generate_bullet_token_func_counts in H1 as (? & ? & ? & Hr & _).
  specialize (Hr eq_refl). split_and!; try done; lia.
- apply generate_bullet_token_func_counts in H1 as (? & ? & ? & _).
  destruct (is_SplatNetException e).
  + apply generate_bullet_token_func_counts in Hrun as (? & ? & ? & Hr & _).
    split_and!; try lia. intros ->. specialize (Hr eq_refl). lia.
  + simplify_eq. split_and!; try done; lia.
Qed.

Lemma ready_to_mint_func s sa :
ready_to_mint s sa →
generate_bullet_token_func s = mint sa
∧ is_Some (_tokens (self sa) !! SESSION_TOKEN)
∧ is_Some (_tokens (self sa) !! GTOKEN)
∧ bullet_calls sa = bullet_calls s.
Proof.
intros [Hsess [[Hn ->]|[Hn Hg]]].
- rewrite generate_bullet_token_func_eq, Hn by done.
  split_and!; try done.
  unfold needs_gtoken in Hn. apply orb_false_elim in Hn as [Hn _].
  apply negb_false_iff, bool_decide_eq_true in Hn. done.
- rewrite generate_bullet_token_func_eq, Hn, Hg by done.
  pose proof (generate_gtoken_inv _ _ _ Hg Hsess) as (_ & _ & Hk & Hr).
  destruct (Hr eq_refl) as (? & ? & ?).
  apply generate_gtoken_counts in Hg as (? & _).
  split_and!; by auto.
Qed.

(** The state after a minting call that answered [bullet_token]. *)
Lemma mint_Return s bullet_token n' :
nso_get_bullet_token (history (world s)) (nso (self s)) = (Return bullet_token, n') →
mint s
= (if String.eqb bullet_token "" then Raise bullet_error else Return tt,
   added bullet_token BULLET_TOKEN None
     (set_nso (λ _, n') (set_world (log_event (GetBulletToken (nso (self s)))) s))).
Proof. intros H. unfold mint. rewrite H. by destruct (String.eqb bullet_token ""). Qed.

(** C1. A minting call that answers with an empty value makes
  [generate_bullet_token] run its whole body once more, and only once:
  no invocation makes more than two minting calls; when the first
  answer is empty the minting call is made exactly twice, and the
  invocation returns if the second answer is not empty and raises
  [SplatNetException] if it is empty as well. *)
Theorem generate_bullet_token_retries_once :
(∀ s, (bullet_calls (generate_bullet_token s).2 ≤ bullet_calls s + 2)%nat)
∧ (∀ s sa n1 n2 b,
     BULLET_TOKEN ≠ GTOKEN →
     ready_to_mint s sa →
     nso_get_bullet_token (history (world sa)) (nso (self sa)) = (Return "", n1) →
     is_Some (_user_info n1) →
     nso_get_bullet_token (history (world sa) ++ [GetBulletToken (nso (self sa))]) n1
     = (Return b, n2) →
     (generate_bullet_token s).1
     = (if String.eqb b "" then Raise bullet_error else Return tt)
     ∧ history (world (generate_bullet_token s).2)
       = history (world sa) ++ [GetBulletToken (nso (self sa)); GetBulletToken n1]
     ∧ bullet_calls (generate_bullet_token s).2 = (bullet_calls s + 2)%nat).
Proof.
split.
- intros s. destruct (generate_bullet_token s) as [r s'] eqn:Hrun.
  apply generate_bullet_token_counts in Hrun. simpl. lia.
- intros s sa n1 n2 b Hne Hready H1 Hui H2.
  destruct (ready_to_mint_func _ _ Hready) as (Hfunc & Hsess & Hgt & Hcount).
  pose proof (mint_Return _ _ _ H1) as Hm1.
  change (String.eqb "" "") with true in Hm1. cbv iota in Hm1.
  remember (added "" BULLET_TOKEN None
              (set_nso (λ _, n1)
                 (set_world (log_event (GetBulletToken (nso (self sa)))) sa)))
    as s2 eqn:Hs2.
  assert (Hn2 : nso (self s2) = n1) by (rewrite Hs2; by rewrite added_nso_ne).
  assert (Hh2 : history (world s2) = history (world sa) ++ [GetBulletToken (nso (self sa))])
    by (rewrite Hs2; by rewrite added_world).
  assert (Hk2 : ∀ k, is_Some (_tokens (self sa) !! k) → is_Some (_tokens (self s2) !! k)).
  { intros k Hk. rewrite Hs2, added_tokens, lookup_insert_is_Some'. by auto. }
  assert (Hneeds : needs_gtoken s2 = false).
  { unfold needs_gtoken. rewrite Hn2.
    rewrite !bool_decide_eq_true_2; [done | done | by apply Hk2]. }
  assert (H2' : nso_get_bullet_token (history (world s2)) (nso (self s2)) = (Return b, n2))
    by (by rewrite Hh2, Hn2).
  pose proof (mint_Return _ _ _ H2') as Hm2.
  remember (added b BULLET_TOKEN None
              (set_nso (λ _, n2)
                 (set_world (log_event (GetBulletToken (nso (self s2)))) s2)))
    as s3 eqn:Hs3.
  assert (Hh3 : history (world s3)
                = history (world sa) ++ [GetBulletToken (nso (self sa)); GetBulletToken n1]).
  { rewrite Hs3, added_world. simpl. by rewrite Hh2, Hn2, <- app_assoc. }
  assert (Hrun : generate_bullet_token s
                 = (if String.eqb b "" then Raise bullet_error else Return tt, s3)).
  { rewrite generate_bullet_token_eq, Hfunc, Hm1. simpl.
    rewrite generate_bullet_token_func_eq, Hneeds by (by apply Hk2). done. }
  rewrite Hrun. simpl. split_and!; [done | done |].
  unfold bullet_calls in *. rewrite Hh3, <- Hcount.
  change [GetBulletToken (nso (self sa)); GetBulletToken n1]
    with ([GetBulletToken (nso (self sa))] ++ [GetBulletToken n1]).
  rewrite app_assoc, !calls_snoc. simpl. lia.
Qed.

Lemma generate_bullet_token_no_session s :
_tokens (self s) !! SESSION_TOKEN = None →
generate_bullet_token s
= (Raise (ValueError "Session token must be set before generating a bullet token."), s).
Proof.
intros H. rewrite generate_bullet_token_eq.
by rewrite generate_bullet_token_func_no_session.
Qed.

Lemma generate_bullet_token_func_remote s r s' :
is_Some (_tokens (self s) !! SESSION_TOKEN) →
generate_bullet_token_func s = (r, s') →
(gtoken_calls s + bullet_calls s < gtoken_calls s' + bullet_calls s')%nat.
Proof.
intros Hsess Hrun. rewrite generate_bullet_token_func_eq in Hrun by done.
destruct (needs_gtoken s).
- destruct (generate_gtoken s) as [[[]|e] sa] eqn:Hg.
  + pose proof (generate_gtoken_counts _ _ _ Hg) as (? & ? & ? & Hr).
    specialize (Hr eq_refl). apply mint_counts in Hrun as (? & ? & ?). lia.
  + simplify_eq. pose proof (generate_gtoken_counts _ _ _ Hg) as (? & ? & ? & _).
    apply generate_gtoken_inv in Hg as (Hh & _); [|done].
    unfold gtoken_calls in *. rewrite Hh, calls_snoc in *. simpl. lia.
- apply mint_counts in Hrun as (? & ? & ?). lia.
Qed.

(** C5 (amended). Both derivations test that the keychain has an entry for
  the Session credential, not that its value is non-empty.  Without
  the entry they raise [ValueError] and leave the state, and so the
  history of remote calls, as it was.  With the entry, whatever its
  value, they go on to a remote call. *)
Theorem derivations_require_session_entry (s : St) :
(_tokens (self s) !! SESSION_TOKEN = None →
 generate_gtoken s
 = (Raise (ValueError "Session token must be set before generating a gtoken."), s)
 ∧ generate_bullet_token s
   = (Raise (ValueError "Session token must be set before generating a bullet token."), s))
∧ (is_Some (_tokens (self s) !! SESSION_TOKEN) →
   history (world (generate_gtoken s).2)
   = history (world s) ++ [GetGtoken (nso (self s))]
   ∧ (gtoken_calls s + bullet_calls s
      < gtoken_calls (generate_bullet_token s).2
        + bullet_calls (generate_bullet_token s).2)%nat).
Proof.
split.
- intros H. split.
  + by apply generate_gtoken_no_session.
  + by apply generate_bullet_token_no_session.
- intros Hsess. split.
  + destruct (generate_gtoken s) as [r s'] eqn:Hg. simpl.
    by apply generate_gtoken_inv in Hg as (-> & _).
  + destruct (generate_bullet_token s) as [r s'] eqn:Hrun. simpl.
    rewrite generate_bullet_token_eq in Hrun.
    destruct (generate_bullet_token_func s) as [[[]|e] s1] eqn:H1.
    * simplify_eq. by eapply generate_bullet_token_func_remote.
    * pose proof (generate_bullet_token_func_remote _ _ _ Hsess H1).
      destruct (is_SplatNetException e); [|by simplify_eq].
      apply generate_bullet_token_func_counts in Hrun as (? & ? & ? & _). lia.
Qed.


(** C10. [add_token] with a string and no token type raises [ValueError]
  and changes nothing: not the keychain, nor anything else. *)
Theorem add_token_str_without_type (token : string) (timestamp : option float) (s : St) :
add_token (Str token) None timestamp s
= (Raise (ValueError "token_type must be provided if token is a str."), s).
Proof. reflexivity. Qed.

(** *** The keychain operations *)

Lemma add_token_obj t token_type timestamp s :
add_token (Obj t) token_type timestamp s
= (Return tt,
   (if String.eqb (Token.token_type t) GTOKEN
    then set_nso (with_gtoken (Some (Token.token t))) else id)
     (set_tokens (insert (Token.token_type t) t) s)).
Proof.
unfold add_token, bind, modify, ret. simpl.
by destruct (String.eqb (Token.token_type t) GTOKEN).
Qed.

(** C8 (amended). [get] and [token_is_valid] change nothing.  [add_token]
  leaves the outside world (the history of remote calls and the files),
  the locale data and the origin as they were, and of the collaborator
  it changes one field only: [_gtoken], which it sets to the value
  added when the kind is the gtoken.  [add_session_token] likewise sets
  [_session_token]. *)
Theorem keychain_operations_frame (s : St) :
(∀ k, (get k s).2 = s ∧ (get_full k s).2 = s ∧ (token_is_valid k s).2 = s)
∧ (∀ token token_type timestamp,
     let s' := (add_token token token_type timestamp s).2 in
     world s' = world s
     ∧ _data (self s') = _data (self s)
     ∧ _origin (self s') = _origin (self s)
     ∧ _session_token (nso (self s')) = _session_token (nso (self s))
     ∧ _user_info (nso (self s')) = _user_info (nso (self s))
     ∧ _gtoken (nso (self s'))
       = if decide (kind_of token token_type = Some GTOKEN)
         then Some (value_of token) else _gtoken (nso (self s)))
∧ (∀ token,
     let s' := (add_session_token token s).2 in
     world s' = world s
     ∧ _data (self s') = _data (self s)
     ∧ _origin (self s') = _origin (self s)
     ∧ _session_token (nso (self s')) = Some token
     ∧ _user_info (nso (self s')) = _user_info (nso (self s))
     ∧ _gtoken (nso (self s'))
       = if decide (SESSION_TOKEN = GTOKEN)
         then Some token else _gtoken (nso (self s))).
Proof.
split_and!.
- intros k. rewrite get_spec, get_full_spec, token_is_valid_spec.
  by destruct (_ !! _).
- intros [v|t] [ty|] ts; cbv zeta.
  + rewrite add_token_str. unfold added. simpl.
    destruct (String.eqb_spec ty GTOKEN) as [Heq|Hne]; simpl.
    * rewrite decide_True by congruence. done.
    * rewrite decide_False by congruence. done.
  + done.
  + rewrite add_token_obj.
    destruct (String.eqb_spec (Token.token_type t) GTOKEN) as [Heq|Hne]; simpl.
    * rewrite decide_True by congruence. done.
    * rewrite decide_False by congruence. done.
  + rewrite add_token_obj.
    destruct (String.eqb_spec (Token.token_type t) GTOKEN) as [Heq|Hne]; simpl.
    * rewrite decide_True by congruence. done.
    * rewrite decide_False by congruence. done.
- intros token. cbv zeta. unfold add_session_token, bind, modify.
  rewrite add_token_str. unfold added. simpl.
  destruct (String.eqb_spec SESSION_TOKEN GTOKEN) as [Heq|Hne]; simpl.
  * rewrite decide_True by congruence. done.
  * rewrite decide_False by congruence. done.
Qed.

(** *** Kinds in the keychain *)

Lemma keeps_kinds_refl s : keeps_kinds s s.
Proof. intros k t H. by left. Qed.

Lemma keeps_kinds_trans s1 s2 s3 :
keeps_kinds s1 s2 → keeps_kinds s2 s3 → keeps_kinds s1 s3.
Proof.
intros H12 H23 k t H. destruct (H23 _ _ H) as [H'|H']; [|by right].
by apply H12.
Qed.

Lemma keeps_kinds_insert s s' token token_type timestamp :
_tokens (self s')
= <[token_type := Token.init TOKEN_EXPIRATIONS token token_type timestamp]>
    (_tokens (self s)) →
keeps_kinds s s'.
Proof.
intros Heq k t. rewrite Heq, lookup_insert.
case_decide as Hk; intros H; simplify_eq; [by right | by left].
Qed.

Lemma keeps_kinds_same s s' :
_tokens (self s') = _tokens (self s) → keeps_kinds s s'.
Proof. intros Heq k t. rewrite Heq. by left. Qed.

Lemma kind_consistent_step s s' :
kind_consistent s → keeps_kinds s s' → kind_consistent s'.
Proof. intros Hs Hk k t H. destruct (Hk _ _ H); by eauto. Qed.

Lemma generate_gtoken_tokens s r s' :
generate_gtoken s = (r, s') →
_tokens (self s') = _tokens (self s)
∨ ∃ g ts, _tokens (self s')
          = <[GTOKEN := Token.init TOKEN_EXPIRATIONS g GTOKEN ts]> (_tokens (self s)).
Proof.
intros Hrun.
unfold generate_gtoken, bind, gets, raise, ret, modify, call_get_gtoken in Hrun.
simpl in Hrun.
destruct (_tokens (self s) !! SESSION_TOKEN); [|simplify_eq; by left].
destruct (nso_get_gtoken _ _) as [[g|e] n'];
  rewrite ?String.eqb_refl in Hrun; simpl in Hrun;
  repeat (case_match; simplify_eq/=); simplify_eq/=; eauto.
Qed.

Lemma mint_tokens s r s' :
mint s = (r, s') →
_tokens (self s') = _tokens (self s)
∨ ∃ b ts, _tokens (self s')
          = <[BULLET_TOKEN := Token.init TOKEN_EXPIRATIONS b BULLET_TOKEN ts]>
              (_tokens (self s)).
Proof.
unfold mint. intros Hrun.
destruct (nso_get_bullet_token _ _) as [[b|e] n'].
- right. exists b.
  assert (s' = added b BULLET_TOKEN None
            (set_nso (λ _, n') (set_world (log_event (GetBulletToken (nso (self s)))) s)))
    as -> by (destruct (String.eqb b ""); by simplify_eq).
  rewrite added_tokens. by eexists.
- simplify_eq. by left.
Qed.

Lemma generate_gtoken_keeps_kinds s r s' :
generate_gtoken s = (r, s') → keeps_kinds s s'.
Proof.
intros H. apply generate_gtoken_tokens in H as [H|(g & ts & H)].
- by apply keeps_kinds_same.
- by eapply keeps_kinds_insert.
Qed.

Lemma mint_keeps_kinds s r s' : mint s = (r, s') → keeps_kinds s s'.
Proof.
intros H. apply mint_tokens in H as [H|(g & ts & H)].
- by apply keeps_kinds_same.
- by eapply keeps_kinds_insert.
Qed.

Lemma generate_bullet_token_func_keeps_kinds s r s' :
generate_bullet_token_func s = (r, s') → keeps_kinds s s'.
Proof.
intros Hrun.
destruct (_tokens (self s) !! SESSION_TOKEN) as [t|] eqn:Ht.
- rewrite generate_bullet_token_func_eq in Hrun by eauto.
  destruct (needs_gtoken s).
  + destruct (generate_gtoken s) as [[[]|e] sa] eqn:Hg.
    * eapply keeps_kinds_trans;
        [by eapply generate_gtoken_keeps_kinds | by eapply mint_keeps_kinds].
    * simplify_eq. by eapply generate_gtoken_keeps_kinds.
  + by eapply mint_keeps_kinds.
- rewrite generate_bullet_token_func_no_session in Hrun by done.
  simplify_eq. apply keeps_kinds_refl.
Qed.

Lemma generate_bullet_token_keeps_kinds s r s' :
generate_bullet_token s = (r, s') → keeps_kinds s s'.
Proof.
rewrite generate_bullet_token_eq. intros Hrun.
destruct (generate_bullet_token_func s) as [[[]|e] s1] eqn:H1.
- simplify_eq. by eapply generate_bullet_token_func_keeps_kinds.
- apply generate_bullet_token_func_keeps_kinds in H1.
  destruct (is_SplatNetException e).
  + eapply keeps_kinds_trans; [done|].
    by eapply generate_bullet_token_func_keeps_kinds.
  + by simplify_eq.
Qed.

Lemma add_token_keeps_kinds token token_type timestamp s :
keeps_kinds s (add_token token token_type timestamp s).2.
Proof.
destruct token as [v|t], token_type as [ty|].
- rewrite add_token_str. eapply keeps_kinds_insert. apply added_tokens.
- apply keeps_kinds_refl.
- rewrite add_token_obj. intros k t'.
  destruct (String.eqb (Token.token_type t) GTOKEN); simpl;
    rewrite lookup_insert; case_decide; intros; simplify_eq; auto.
- rewrite add_token_obj. intros k t'.
  destruct (String.eqb (Token.token_type t) GTOKEN); simpl;
    rewrite lookup_insert; case_decide; intros; simplify_eq; auto.
Qed.

Lemma run_op_keeps_kinds o s : keeps_kinds s (run_op o s).2.
Proof.
destruct o as [token token_type timestamp|token| |]; simpl.
- apply add_token_keeps_kinds.
- unfold add_session_token, bind, modify. rewrite add_token_str.
  cbn [snd]. eapply keeps_kinds_insert.
  change (_tokens (self (set_nso ?f ?x))) with (_tokens (self x)).
  apply added_tokens.
- destruct (generate_gtoken s) as [r s'] eqn:H.
  by eapply generate_gtoken_keeps_kinds.
- destruct (generate_bullet_token s) as [r s'] eqn:H.
  by eapply generate_bullet_token_keeps_kinds.
Qed.

Lemma run_ops_kind_consistent l s :
kind_consistent s → kind_consistent (run_ops l s).
Proof.
revert s. induction l as [|o l IH]; intros s Hs; simpl; [done|].
apply IH. eapply kind_consistent_step; [done|]. apply run_op_keeps_kinds.
Qed.

(** C9. The keychain is a map from token types to tokens, so it holds at
  most one token per type; a manager starts with an empty keychain, and
  after any sequence of [add_token], [add_session_token],
  [generate_gtoken] and [generate_bullet_token] (also of calls that
  raised) every entry is filed under the type of its token.  A token
  added under a type replaces the one that was there: [get] then
  returns the value added last. *)
Theorem keychain_kind_consistent :
(∀ l w n, kind_consistent (run_ops l {| world := w; self := init n |}))
∧ (∀ l s, kind_consistent s → kind_consistent (run_ops l s))
∧ (∀ s v1 v2 K ts1 ts2,
     (get K (add_token (Str v2) (Some K) ts2
               (add_token (Str v1) (Some K) ts1 s).2).2).1 = Return v2)
∧ (∀ s v t ts,
     (get (Token.token_type t)
        (add_token (Obj t) None None
           (add_token (Str v) (Some (Token.token_type t)) ts s).2).2).1
     = Return (Token.token t)).
Proof.
split_and!.
- intros l w n. apply run_ops_kind_consistent. intros k t H.
  simpl in H. by rewrite lookup_empty in H.
- intros l s. apply run_ops_kind_consistent.
- intros s v1 v2 K ts1 ts2. rewrite !add_token_str, get_spec. cbn [fst snd].
  by rewrite added_tokens, lookup_insert_eq.
- intros s v t ts. rewrite add_token_str, add_token_obj, get_spec. simpl.
  destruct (String.eqb (Token.token_type t) GTOKEN); simpl;
    by rewrite lookup_insert_eq.
Qed.

(** *** Loading and saving *)





Lemma for_each_load_token (l : list (string * string)) (s : St) :
for_each l (fun '(option, token) =>
  (if String.eqb option SESSION_TOKEN
   then modify (set_nso (with_session_token (Some token)))
   else if String.eqb option GTOKEN
   then modify (set_nso (with_gtoken (Some token)))
   else ret tt) ;;;
  add_token (Str token) (Some option) None) s
= (Return tt, foldl load_token s l).
Proof.
revert s. induction l as [|[option token] l IH]; intros s; [done|].
cbn [for_each foldl]. unfold bind at 1. unfold bind at 1.
destruct (String.eqb option SESSION_TOKEN) eqn:E1;
  [|destruct (String.eqb option GTOKEN) eqn:E2];
  unfold modify, ret; rewrite add_token_str, IH;
  unfold load_token; by rewrite E1, ?E2.
Qed.

Lemma for_each_load_data (l : list (string * string)) (s : St) :
for_each l (fun '(option, value) => modify (set_data (insert option value))) s
= (Return tt, foldl load_data s l).
Proof.
revert s. induction l as [|[option value] l IH]; intros s; [done|].
cbn [for_each foldl]. unfold bind at 1, modify at 1. by rewrite IH.
Qed.

Lemma foldl_load_token_frame l s :
world (foldl load_token s l) = world s
∧ _data (self (foldl load_token s l)) = _data (self s)
∧ Token.token <$> _tokens (self (foldl load_token s l))
  = foldl insert_item (Token.token <$> _tokens (self s)) l.
Proof.
revert s. induction l as [|[option token] l IH]; intros s; [done|].
cbn [foldl]. destruct (IH (load_token s (option, token))) as (-> & -> & ->).
unfold load_token. rewrite added_world, added_data, added_tokens, fmap_insert.
unfold insert_item.
destruct (String.eqb option SESSION_TOKEN); [|destruct (String.eqb option GTOKEN)];
  done.
Qed.


(** [from_config_file], branch by branch. *)
Lemma from_config_file_body_eq path s :
from_config_file_body path s
= let config := default ∅ (files (world s) !! path) in
  let s0 := set_origin (Some ("config_file", Some path)) s in
  match config !! "tokens" with
  | None => (Raise (ValueError "Config file does not have a 'tokens' section."), s0)
  | Some tokens =>
      let s1 := foldl load_token s0 (map_to_list tokens) in
      match config !! "data" with
      | None => generate_all_tokens s1
      | Some data => test_tokens None (foldl load_data s1 (map_to_list data))
      end
  end.
Proof.
unfold from_config_file_body, ConfigParser.has_section, ConfigParser.items.
unfold bind at 1, gets at 1. unfold bind at 1, flag_origin, modify at 1.
cbn [world set_origin]. cbv zeta.
destruct (default ∅ (files (world s) !! path) !! "tokens") as [tokens|] eqn:Ht.
- rewrite bool_decide_eq_true_2 by eauto. cbn [negb default].
  unfold bind at 1. rewrite for_each_load_token.
  destruct (default ∅ (files (world s) !! path) !! "data") as [data|] eqn:Hd.
  + rewrite bool_decide_eq_true_2 by eauto. cbn [negb default].
    unfold bind at 1. by rewrite for_each_load_data.
  + rewrite bool_decide_eq_false_2 by (by intros [? ?]). done.
- rewrite bool_decide_eq_false_2 by (by intros [? ?]). done.
Qed.


Lemma call_post_spec bullet language user_agent gtoken s :
call_post bullet language user_agent gtoken s
= (requests_post (history (world s)) bullet language user_agent gtoken,
   set_world (log_event (PostHomeQuery bullet language user_agent gtoken)) s).
Proof. reflexivity. Qed.

Lemma data_getitem_spec key s :
data_getitem key s
= match _data (self s) !! key with
  | Some v => (Return v, s)
  | None => (Raise (KeyError key), s)
  end.
Proof. unfold data_getitem, bind, gets, ret, raise. by destruct (_ !! _). Qed.






(** *** More on [generate_gtoken] *)

(** The result of [generate_gtoken] when the keychain has a Session entry,
    by the answer of the collaborator. *)
Lemma generate_gtoken_eq s :
  is_Some (_tokens (self s) !! SESSION_TOKEN) →
  generate_gtoken s
  = let n := nso (self s) in
    let '(r, n') := nso_get_gtoken (history (world s)) n in
    let s1 := set_nso (fun _ => n') (set_world (log_event (GetGtoken n)) s) in
    match r with
    | Raise e => (Raise e, s1)
    | Return gtoken =>
        let s2 := added gtoken GTOKEN None s1 in
        match _user_info n' with
        | Some user_info =>
            match user_info !! "country", user_info !! "language" with
            | Some country, Some language =>
                (Return tt,
                 set_data (insert "language" language)
                   (set_data (insert "country" country) s2))
            | _, _ =>
                (Raise (NintendoException
                          "Unable to get user info. Gtoken may be invalid."), s2)
            end
        | None =>
            (Raise (NintendoException
                      "Unable to get user info. Gtoken may be invalid."), s2)
        end
    end.
Proof.
  intros [t Ht]. unfold generate_gtoken.
  unfold bind at 1, gets at 1. cbn [world self]. rewrite Ht.
  unfold bind at 1, call_get_gtoken. cbv zeta.
  destruct (nso_get_gtoken _ _) as [[g|e] n']; [|done].
  unfold bind at 1. rewrite add_token_str.
  unfold bind at 1, gets at 1. rewrite added_user_info. cbn [set_nso self nso].
  destruct (_user_info n') as [ui|]; [|done].
  destruct (ui !! "country"), (ui !! "language"); done.
Qed.

(** X1. When [generate_gtoken] returns, the keychain holds under the gtoken
    type the value the collaborator answered, the collaborator's [_gtoken]
    is that value, the data hold the country and the language of the
    collaborator's user info, and every other entry of the keychain is as
    before. *)
Theorem generate_gtoken_returns (s s' : St) :
  generate_gtoken s = (Return tt, s') →
  ∃ gtoken n' user_info country language,
    nso_get_gtoken (history (world s)) (nso (self s)) = (Return gtoken, n')
    ∧ _user_info n' = Some user_info
    ∧ user_info !! "country" = Some country
    ∧ user_info !! "language" = Some language
    ∧ Token.token <$> _tokens (self s') !! GTOKEN = Some gtoken
    ∧ _gtoken (nso (self s')) = Some gtoken
    ∧ _data (self s') = <["language" := language]> (<["country" := country]> (_data (self s)))
    ∧ (∀ k, k ≠ GTOKEN → _tokens (self s') !! k = _tokens (self s) !! k).
Proof.
  intros Hrun.
  destruct (_tokens (self s) !! SESSION_TOKEN) as [t|] eqn:Ht.
  2: { rewrite generate_gtoken_no_session in Hrun by done. by simplify_eq. }
  rewrite generate_gtoken_eq in Hrun by eauto. cbv zeta in Hrun.
  destruct (nso_get_gtoken _ _) as [[g|e] n'] eqn:Hor; [|by simplify_eq].
  destruct (_user_info n') as [ui|] eqn:Hui; [|by simplify_eq].
  destruct (ui !! "country") as [c|] eqn:Hc; [|by simplify_eq].
  destruct (ui !! "language") as [l|] eqn:Hl; [|by simplify_eq].
  simplify_eq. exists g, n', ui, c, l.
  split_and!; try done; cbn [set_data self _tokens _data nso].
  - by rewrite added_tokens, lookup_insert_eq.
  - unfold added. by rewrite String.eqb_refl.
  - by rewrite added_data.
  - intros k Hk. by rewrite added_tokens, lookup_insert_ne.
Qed.

(** X2. [generate_gtoken] is not undone when it fails on the user info: if
    the collaborator answers a gtoken but its user info is missing or has
    no country or no language, the method raises [NintendoException], the
    answered gtoken is in the keychain all the same, and the data are
    untouched. *)
Theorem generate_gtoken_without_user_info (s : St) (gtoken : string) (n' : NSO) :
  is_Some (_tokens (self s) !! SESSION_TOKEN) →
  nso_get_gtoken (history (world s)) (nso (self s)) = (Return gtoken, n') →
  (∀ user_info, _user_info n' = Some user_info →
     user_info !! "country" = None ∨ user_info !! "language" = None) →
  (generate_gtoken s).1
  = Raise (NintendoException "Unable to get user info. Gtoken may be invalid.")
  ∧ Token.token <$> _tokens (self (generate_gtoken s).2) !! GTOKEN = Some gtoken
  ∧ _data (self (generate_gtoken s).2) = _data (self s).
Proof.
  intros Hsess Hor Hui. rewrite generate_gtoken_eq by done. cbv zeta. rewrite Hor.
  destruct (_user_info n') as [ui|] eqn:E.
  - destruct (Hui ui eq_refl) as [-> | Hl].
    + cbn [fst snd]. by rewrite added_tokens, lookup_insert_eq, added_data.
    + rewrite Hl. destruct (ui !! "country");
        cbn [fst snd]; by rewrite added_tokens, lookup_insert_eq, added_data.
  - cbn [fst snd]. by rewrite added_tokens, lookup_insert_eq, added_data.
Qed.

(** An exception of the collaborator's Account derivation comes out of
    [generate_gtoken] as it is, after that one remote call, and leaves
    keychain and data as they were. *)
Theorem generate_gtoken_collaborator_raises (s : St) (e : exn) (n' : NSO) :
  is_Some (_tokens (self s) !! SESSION_TOKEN) →
  nso_get_gtoken (history (world s)) (nso (self s)) = (Raise e, n') →
  (generate_gtoken s).1 = Raise e
  ∧ history (world (generate_gtoken s).2) = history (world s) ++ [GetGtoken (nso (self s))]
  ∧ _tokens (self (generate_gtoken s).2) = _tokens (self s)
  ∧ _data (self (generate_gtoken s).2) = _data (self s).
Proof.
  intros Hsess Hor. rewrite generate_gtoken_eq by done. cbv zeta. by rewrite Hor.
Qed.

(** *** More on [generate_bullet_token] and [generate_all_tokens] *)

(** X3. Only a [SplatNetException] is tried again: when the minting call
    raises another exception, [generate_bullet_token] raises it after that
    single minting call and the keychain is as it was when the call was
    made. *)
Theorem generate_bullet_token_other_exception (s sa : St) (e : exn) (n' : NSO) :
  ready_to_mint s sa →
  nso_get_bullet_token (history (world sa)) (nso (self sa)) = (Raise e, n') →
  is_SplatNetException e = false →
  (generate_bullet_token s).1 = Raise e
  ∧ bullet_calls (generate_bullet_token s).2 = (bullet_calls s + 1)%nat
  ∧ _tokens (self (generate_bullet_token s).2) = _tokens (self sa).
Proof.
  intros Hready Hor He.
  destruct (ready_to_mint_func _ _ Hready) as (Hfunc & _ & _ & Hcount).
  assert (Hm : mint sa
               = (Raise e, set_nso (λ _, n')
                             (set_world (log_event (GetBulletToken (nso (self sa)))) sa)))
    by (unfold mint; by rewrite Hor).
  rewrite generate_bullet_token_eq, Hfunc, Hm, He. cbn [fst snd].
  split_and!; [done | | done].
  unfold bullet_calls in *. cbn [set_nso set_world world log_event history].
  rewrite calls_snoc, Hcount. simpl. lia.
Qed.

(** X4. When both answers of the minting call are empty,
    [generate_bullet_token] raises and leaves an empty bullet token in the
    keychain, which [token_is_valid] reports as not valid. *)
Theorem generate_bullet_token_leaves_empty_token (s sa : St) (n1 n2 : NSO) :
  BULLET_TOKEN ≠ GTOKEN →
  ready_to_mint s sa →
  nso_get_bullet_token (history (world sa)) (nso (self sa)) = (Return "", n1) →
  is_Some (_user_info n1) →
  nso_get_bullet_token (history (world sa) ++ [GetBulletToken (nso (self sa))]) n1
  = (Return "", n2) →
  (generate_bullet_token s).1 = Raise bullet_error
  ∧ Token.token <$> _tokens (self (generate_bullet_token s).2) !! BULLET_TOKEN = Some ""
  ∧ (token_is_valid BULLET_TOKEN (generate_bullet_token s).2).1 = Return false.
Proof.
  intros Hne Hready H1 Hui H2.
  destruct (ready_to_mint_func _ _ Hready) as (Hfunc & Hsess & Hgt & Hcount).
  pose proof (mint_Return _ _ _ H1) as Hm1.
  change (String.eqb "" "") with true in Hm1. cbv iota in Hm1.
  remember (added "" BULLET_TOKEN None
              (set_nso (λ _, n1)
                 (set_world (log_event (GetBulletToken (nso (self sa)))) sa)))
    as s2 eqn:Hs2.
  assert (Hn2 : nso (self s2) = n1) by (rewrite Hs2; by rewrite added_nso_ne).
  assert (Hh2 : history (world s2) = history (world sa) ++ [GetBulletToken (nso (self sa))])
    by (rewrite Hs2; by rewrite added_world).
  assert (Hk2 : ∀ k, is_Some (_tokens (self sa) !! k) → is_Some (_tokens (self s2) !! k)).
  { intros k Hk. rewrite Hs2, added_tokens, lookup_insert_is_Some'. by auto. }
  assert (Hneeds : needs_gtoken s2 = false).
  { unfold needs_gtoken. rewrite Hn2.
    rewrite !bool_decide_eq_true_2; [done | done | by apply Hk2]. }
  assert (H2' : nso_get_bullet_token (history (world s2)) (nso (self s2)) = (Return "", n2))
    by (by rewrite Hh2, Hn2).
  pose proof (mint_Return _ _ _ H2') as Hm2.
  change (String.eqb "" "") with true in Hm2. cbv iota in Hm2.
  assert (Hrun : generate_bullet_token s
                 = (Raise bullet_error,
                    added "" BULLET_TOKEN None
                      (set_nso (λ _, n2)
                         (set_world (log_event (GetBulletToken (nso (self s2)))) s2)))).
  { rewrite generate_bullet_token_eq, Hfunc, Hm1. cbn [is_SplatNetException bullet_error].
    by rewrite generate_bullet_token_func_eq, Hneeds by (by apply Hk2). }
  rewrite Hrun. cbn [fst snd]. rewrite token_is_valid_spec, added_tokens, lookup_insert_eq.
  done.
Qed.

(** X5. [generate_all_tokens] derives the gtoken anew whether or not the
    keychain holds one, and then mints from it: when the Account derivation
    succeeds and the minted value is not empty, the method returns after
    exactly these two remote calls, with the minted value in the keychain. *)
Theorem generate_all_tokens_two_calls (s sa : St) (b : string) (n' : NSO) :
  generate_gtoken s = (Return tt, sa) →
  nso_get_bullet_token (history (world sa)) (nso (self sa)) = (Return b, n') →
  b ≠ "" →
  (generate_all_tokens s).1 = Return tt
  ∧ history (world (generate_all_tokens s).2)
    = history (world s) ++ [GetGtoken (nso (self s)); GetBulletToken (nso (self sa))]
  ∧ Token.token <$> _tokens (self (generate_all_tokens s).2) !! BULLET_TOKEN = Some b.
Proof.
  intros Hg Hor Hb.
  assert (Hsess : is_Some (_tokens (self s) !! SESSION_TOKEN)).
  { destruct (_tokens (self s) !! SESSION_TOKEN) eqn:E; [by eauto|].
    rewrite generate_gtoken_no_session in Hg by done. by simplify_eq. }
  destruct (generate_gtoken_inv _ _ _ Hg Hsess) as (Hh & _ & Hk & Hr).
  destruct (Hr eq_refl) as (Hgt & Hui & _).
  assert (Hneeds : needs_gtoken sa = false).
  { unfold needs_gtoken. by rewrite !bool_decide_eq_true_2. }
  unfold generate_all_tokens, bind. rewrite Hg.
  rewrite generate_bullet_token_eq, generate_bullet_token_func_eq, Hneeds by (by apply Hk).
  rewrite (mint_Return _ _ _ Hor).
  destruct (String.eqb_spec b ""); [done|]. cbn [fst snd].
  rewrite added_world, added_tokens, lookup_insert_eq.
  cbn [set_nso set_world world log_event history]. rewrite Hh, <- app_assoc. done.
Qed.

(** When the Account derivation of [generate_all_tokens] raises, whatever
    the exception, the method raises it and nothing is minted. *)
Theorem generate_all_tokens_stops_at_gtoken (s s1 : St) (e : exn) :
  generate_gtoken s = (Raise e, s1) →
  generate_all_tokens s = (Raise e, s1) ∧ bullet_calls s1 = bullet_calls s.
Proof.
  intros Hg. unfold generate_all_tokens, bind. rewrite Hg. split; [done|].
  by apply generate_gtoken_counts in Hg as (-> & _).
Qed.

(** *** More on [test_tokens] *)

(** X6. Without a Session entry [test_tokens] raises the [ValueError] of
    [get] (the test [is None] that follows is never reached), changes
    nothing and makes no remote call. *)
Theorem test_tokens_without_session (user_agent : option string) (s : St) :
  _tokens (self s) !! SESSION_TOKEN = None →
  test_tokens user_agent s
  = (Raise (ValueError (String.append "Token of type "
                          (String.append SESSION_TOKEN " not found."))), s).
Proof.
  intros H. unfold test_tokens. unfold bind at 1. by rewrite get_spec, H.
Qed.

(** X7. With a Session entry and a non-empty gtoken and bullet token in the
    keychain, [test_tokens] derives nothing before the probe; without a
    language in the data it raises [KeyError] before the probe is sent,
    and the state is unchanged. *)
Theorem test_tokens_without_language (user_agent : option string) (s : St)
        (ts tg tb : Token.t) :
  _tokens (self s) !! SESSION_TOKEN = Some ts →
  _tokens (self s) !! GTOKEN = Some tg → Token.token tg ≠ "" →
  _tokens (self s) !! BULLET_TOKEN = Some tb → Token.token tb ≠ "" →
  _data (self s) !! "language" = None →
  test_tokens user_agent s = (Raise (KeyError "language"), s).
Proof.
  intros Hs Hg Hgv Hb Hbv Hl. unfold test_tokens.
  unfold bind at 1. rewrite get_spec, Hs.
  unfold bind at 1. rewrite token_is_valid_spec, Hg.
  assert (Token.is_valid tg = true) as ->.
  { unfold Token.is_valid. by destruct (String.eqb_spec (Token.token tg) ""). }
  unfold bind at 1. cbn [negb]. unfold ret at 1.
  unfold bind at 1. rewrite token_is_valid_spec, Hb.
  assert (Token.is_valid tb = true) as ->.
  { unfold Token.is_valid. by destruct (String.eqb_spec (Token.token tb) ""). }
  unfold bind at 1. cbn [negb]. unfold ret at 1.
  unfold bind at 1. rewrite get_spec, Hb.
  unfold bind at 1. by rewrite data_getitem_spec, Hl.
Qed.

(** X8. With valid tokens and a language, [test_tokens] sends the probe
    with the stored bullet token, language and gtoken; a status other than
    200 makes it run [generate_all_tokens], and an exception of the probe
    comes out as it is. *)
Theorem test_tokens_probe_fails (user_agent : option string) (s : St)
        (ts tg tb : Token.t) (language : string) :
  _tokens (self s) !! SESSION_TOKEN = Some ts →
  _tokens (self s) !! GTOKEN = Some tg → Token.token tg ≠ "" →
  _tokens (self s) !! BULLET_TOKEN = Some tb → Token.token tb ≠ "" →
  _data (self s) !! "language" = Some language →
  let probed :=
    set_world (log_event (PostHomeQuery (Token.token tb) language user_agent
                            (Token.token tg))) s in
  match requests_post (history (world s)) (Token.token tb) language user_agent
          (Token.token tg) with
  | Return status =>
      test_tokens user_agent s
      = if Z.eqb status 200 then (Return tt, probed) else generate_all_tokens probed
  | Raise e => test_tokens user_agent s = (Raise e, probed)
  end.
Proof.
  intros Hs Hg Hgv Hb Hbv Hl. cbv zeta.
  assert (Heq : test_tokens user_agent s
                = bind (call_post (Token.token tb) language user_agent (Token.token tg))
                    (fun status_code =>
                       if negb (Z.eqb status_code 200) then generate_all_tokens else ret tt)
                    s).
  { unfold test_tokens.
    unfold bind at 1. rewrite get_spec, Hs.
    unfold bind at 1. rewrite token_is_valid_spec, Hg.
    assert (Token.is_valid tg = true) as ->.
    { unfold Token.is_valid. by destruct (String.eqb_spec (Token.token tg) ""). }
    unfold bind at 1. cbn [negb]. unfold ret at 1.
    unfold bind at 1. rewrite token_is_valid_spec, Hb.
    assert (Token.is_valid tb = true) as ->.
    { unfold Token.is_valid. by destruct (String.eqb_spec (Token.token tb) ""). }
    unfold bind at 1. cbn [negb]. unfold ret at 1.
    unfold bind at 1. rewrite get_spec, Hb.
    unfold bind at 1. rewrite data_getitem_spec, Hl.
    unfold bind at 1. by rewrite get_spec, Hg. }
  rewrite Heq. unfold bind. rewrite call_post_spec.
  destruct (requests_post _ _ _ _ _) as [status|e]; [|reflexivity].
  destruct (Z.eqb status 200); reflexivity.
Qed.

(** X9. A missing or empty gtoken is derived by [test_tokens] before
    anything else is asked: with a Session entry and no valid gtoken, the
    first remote call is the Account derivation, and when that raises,
    [test_tokens] raises the same exception and sends no probe. *)
Theorem test_tokens_derives_gtoken_first (user_agent : option string) (s s1 : St)
        (ts : Token.t) (e : exn) :
  _tokens (self s) !! SESSION_TOKEN = Some ts →
  (token_is_valid GTOKEN s).1 = Return false →
  generate_gtoken s = (Raise e, s1) →
  test_tokens user_agent s = (Raise e, s1)
  ∧ history (world s1) = history (world s) ++ [GetGtoken (nso (self s))].
Proof.
  intros Hs Hv Hg. rewrite token_is_valid_spec in Hv. cbn [fst] in Hv.
  split.
  - unfold test_tokens. unfold bind at 1. rewrite get_spec, Hs.
    unfold bind at 1. rewrite token_is_valid_spec.
    injection Hv as Hv. rewrite Hv. cbn [negb]. unfold bind at 1. by rewrite Hg.
  - apply generate_gtoken_inv in Hg as (-> & _); [done | by eauto].
Qed.

(** *** What the derivations leave alone *)

Lemma added_origin token token_type timestamp s :
  _origin (self (added token token_type timestamp s)) = _origin (self s).
Proof. unfold added. by destruct (String.eqb token_type GTOKEN). Qed.

Lemma added_files token token_type timestamp s :
  files (world (added token token_type timestamp s)) = files (world s).
Proof. by rewrite added_world. Qed.

Lemma generate_gtoken_origin s r s' :
  generate_gtoken s = (r, s') → _origin (self s') = _origin (self s).
Proof.
  intros Hrun.
  destruct (_tokens (self s) !! SESSION_TOKEN) as [t|] eqn:Ht.
  2: { rewrite generate_gtoken_no_session in Hrun by done. by simplify_eq. }
  rewrite generate_gtoken_eq in Hrun by eauto. cbv zeta in Hrun.
  destruct (nso_get_gtoken _ _) as [[g|e] n']; [|by simplify_eq].
  destruct (_user_info n') as [ui|]; [|simplify_eq; by rewrite added_origin].
  destruct (ui !! "country"), (ui !! "language"); simplify_eq;
    cbn [set_data self _origin]; by rewrite added_origin.
Qed.

Lemma mint_origin s r s' :
  mint s = (r, s') → _origin (self s') = _origin (self s).
Proof.
  unfold mint. intros Hrun.
  destruct (nso_get_bullet_token _ _) as [[b|e] n']; [|by simplify_eq].
  destruct (String.eqb b ""); simplify_eq; by rewrite added_origin.
Qed.

Lemma generate_bullet_token_func_origin s r s' :
  generate_bullet_token_func s = (r, s') → _origin (self s') = _origin (self s).
Proof.
  intros Hrun.
  destruct (_tokens (self s) !! SESSION_TOKEN) as [t|] eqn:Ht.
  - rewrite generate_bullet_token_func_eq in Hrun by eauto.
    destruct (needs_gtoken s).
    + destruct (generate_gtoken s) as [[[]|e] sa] eqn:Hg.
      * apply mint_origin in Hrun as ->. by eapply generate_gtoken_origin.
      * simplify_eq. by eapply generate_gtoken_origin.
    + by eapply mint_origin.
  - rewrite generate_bullet_token_func_no_session in Hrun by done. by simplify_eq.
Qed.

Lemma generate_bullet_token_origin s r s' :
  generate_bullet_token s = (r, s') → _origin (self s') = _origin (self s).
Proof.
  rewrite generate_bullet_token_eq. intros Hrun.
  destruct (generate_bullet_token_func s) as [[[]|e] s1] eqn:H1.
  - simplify_eq. by eapply generate_bullet_token_func_origin.
  - apply generate_bullet_token_func_origin in H1.
    destruct (is_SplatNetException e).
    + apply generate_bullet_token_func_origin in Hrun. congruence.
    + by simplify_eq.
Qed.

Lemma generate_all_tokens_origin s r s' :
  generate_all_tokens s = (r, s') → _origin (self s') = _origin (self s).
Proof.
  unfold generate_all_tokens, bind. intros Hrun.
  destruct (generate_gtoken s) as [[[]|e] s1] eqn:Hg.
  - apply generate_gtoken_origin in Hg. apply generate_bullet_token_origin in Hrun.
    congruence.
  - simplify_eq. by eapply generate_gtoken_origin.
Qed.

Lemma test_tokens_origin user_agent s r s' :
  test_tokens user_agent s = (r, s') → _origin (self s') = _origin (self s).
Proof.
  unfold test_tokens. intros Hrun.
  unfold bind at 1 in Hrun. rewrite get_spec in Hrun.
  destruct (_tokens (self s) !! SESSION_TOKEN); [|by simplify_eq].
  unfold bind at 1 in Hrun. rewrite token_is_valid_spec in Hrun.
  unfold bind at 1 in Hrun.
  match type of Hrun with context [if ?b then generate_gtoken else _] =>
    destruct ((if b then generate_gtoken else ret tt) s) as [r1 s1] eqn:H1;
    assert (Hp1 : _origin (self s1) = _origin (self s))
      by (destruct b;
          [by apply generate_gtoken_origin in H1
          |unfold ret in H1; by simplify_eq])
  end.
  clear H1. rewrite <- Hp1. clear Hp1 s.
  destruct r1 as [[]|e]; [|by simplify_eq].
  unfold bind at 1 in Hrun. rewrite token_is_valid_spec in Hrun.
  unfold bind at 1 in Hrun.
  match type of Hrun with context [if ?b then generate_bullet_token else _] =>
    destruct ((if b then generate_bullet_token else ret tt) s1) as [r2 s2] eqn:H2;
    assert (Hp2 : _origin (self s2) = _origin (self s1))
      by (destruct b;
          [by apply generate_bullet_token_origin in H2
          |unfold ret in H2; by simplify_eq])
  end.
  clear H2. rewrite <- Hp2. clear Hp2 s1.
  destruct r2 as [[]|e]; [|by simplify_eq].
  unfold bind at 1 in Hrun. rewrite get_spec in Hrun.
  destruct (_tokens (self s2) !! BULLET_TOKEN) as [tb|]; [|by simplify_eq].
  unfold bind at 1 in Hrun. rewrite data_getitem_spec in Hrun.
  destruct (_data (self s2) !! "language") as [language|]; [|by simplify_eq].
  unfold bind at 1 in Hrun. rewrite get_spec in Hrun.
  destruct (_tokens (self s2) !! GTOKEN) as [tg|]; [|by simplify_eq].
  unfold bind at 1 in Hrun. rewrite call_post_spec in Hrun.
  destruct (requests_post _ _ _ _ _) as [status|e]; [|by simplify_eq].
  destruct (negb (Z.eqb status 200)).
  - by apply generate_all_tokens_origin in Hrun.
  - unfold ret in Hrun. by simplify_eq.
Qed.

Lemma foldl_load_token_origin l s :
  _origin (self (foldl load_token s l)) = _origin (self s).
Proof.
  revert s. induction l as [|[option token] l IH]; intros s; [done|].
  cbn [foldl]. rewrite IH. unfold load_token. rewrite added_origin.
  destruct (String.eqb option SESSION_TOKEN); [|destruct (String.eqb option GTOKEN)];
    done.
Qed.

Lemma foldl_load_data_origin l s :
  _origin (self (foldl load_data s l)) = _origin (self s).
Proof.
  revert s. induction l as [|[option value] l IH]; intros s; [done|].
  cbn [foldl]. by rewrite IH.
Qed.

(** *** More on the constructors *)

(** X10. [from_session_token] makes no remote call and touches no file: it
    returns a manager whose keychain holds the Session token and nothing
    else, whose collaborator holds the same value as [_session_token],
    whose data are empty and whose origin is [session_token]. *)
Theorem from_session_token_result (session_token : string) (w : World) :
  ∃ m, from_session_token session_token w = (Return m, w)
       ∧ Token.token <$> _tokens m = {[ SESSION_TOKEN := session_token ]}
       ∧ _session_token (nso m) = Some session_token
       ∧ _data m = ∅
       ∧ _origin m = Some ("session_token", None).
Proof.
  unfold from_session_token, construct, add_session_token, flag_origin, bind, modify.
  rewrite add_token_str. eexists. split.
  - cbn [world self set_origin set_nso]. by rewrite added_world.
  - cbn [self set_origin set_nso _tokens _data _origin nso with_session_token
           _session_token].
    rewrite added_tokens, added_data. cbn [init self _tokens _data].
    by rewrite fmap_insert, fmap_empty.
Qed.

(** A manager returned by [from_config_file] has the origin
    [config_file] with the path it was read from, in either branch. *)
Theorem from_config_file_origin (path : string) (w w' : World) (m : TokenManager_obj) :
  from_config_file path w = (Return m, w') →
  _origin m = Some ("config_file", Some path).
Proof.
  unfold from_config_file, construct. rewrite from_config_file_body_eq. cbv zeta.
  destruct (default ∅ _ !! "tokens") as [tokens|]; [|done].
  destruct (default ∅ _ !! "data") as [data|].
  - destruct (test_tokens _ _) as [[[]|e] s] eqn:Hrun; [|done].
    intros ?; simplify_eq. apply test_tokens_origin in Hrun as ->.
    by rewrite foldl_load_data_origin, foldl_load_token_origin.
  - destruct (generate_all_tokens _) as [[[]|e] s] eqn:Hrun; [|done].
    intros ?; simplify_eq. apply generate_all_tokens_origin in Hrun as ->.
    by rewrite foldl_load_token_origin.
Qed.


(** X12. [save] changes nothing but the file at its path (the default path
    when none is given): the manager, the history of remote calls and every
    other file are as before, also when it raises. *)
Theorem save_frame (path : option string) (s : St) :
  self (save path s).2 = self s
  ∧ history (world (save path s).2) = history (world s)
  ∧ ∀ p, p ≠ default ".splatnet3_scraper" path →
         files (world (save path s).2) !! p = files (world s) !! p.
Proof.
  unfold save, bind, gets, lift, modify.
  destruct (ConfigParser.setitem "tokens" _ _) as [c1|e]; [|done].
  destruct (ConfigParser.setitem "data" _ _) as [c2|e]; [|done].
  destruct (ConfigParser.setitem "metadata" _ _) as [c3|e]; [|done].
  cbn [snd set_world self world write_file history files].
  split_and!; [done | done |]. intros p Hp. by rewrite lookup_insert_ne.
Qed.


(** X14. Adding a token under one type leaves the other types alone: after
    [add_token] with a string under type [K], [get] and [token_is_valid] of
    any other type answer as before, [get K] answers the string added, and
    [token_is_valid K] tells whether that string is non-empty. *)
Theorem add_token_other_kinds (s : St) (token K : string) (timestamp : option float) :
  let s' := (add_token (Str token) (Some K) timestamp s).2 in
  (get K s').1 = Return token
  ∧ (token_is_valid K s').1 = Return (negb (String.eqb token ""))
  ∧ ∀ K', K' ≠ K →
          (get K' s').1 = (get K' s).1
          ∧ (get_full K' s').1 = (get_full K' s).1
          ∧ (token_is_valid K' s').1 = (token_is_valid K' s).1.
Proof.
  cbv zeta. rewrite add_token_str. cbn [snd].
  split_and!.
  - by rewrite get_spec, added_tokens, lookup_insert_eq.
  - by rewrite token_is_valid_spec, added_tokens, lookup_insert_eq.
  - intros K' Hne.
    rewrite !get_spec, !get_full_spec, !token_is_valid_spec, added_tokens.
    rewrite lookup_insert_ne by done.
    by destruct (_tokens (self s) !! K').
Qed.

(** *** Relations kept by the derivations *)

Section Preserves.
Variable R : St → St → Prop.
Hypothesis R_refl : ∀ s, R s s.
Hypothesis R_trans : ∀ s1 s2 s3, R s1 s2 → R s2 s3 → R s1 s3.
Hypothesis R_gtoken : ∀ s r s', generate_gtoken s = (r, s') → R s s'.
Hypothesis R_mint : ∀ s r s', mint s = (r, s') → R s s'.
Hypothesis R_log : ∀ s e, R s (set_world (log_event e) s).

Lemma generate_bullet_token_func_preserves s r s' :
  generate_bullet_token_func s = (r, s') → R s s'.
Proof using R_refl R_trans R_gtoken R_mint.
  intros Hrun.
  destruct (_tokens (self s) !! SESSION_TOKEN) as [t|] eqn:Ht.
  - rewrite generate_bullet_token_func_eq in Hrun by eauto.
    destruct (needs_gtoken s).
    + destruct (generate_gtoken s) as [[[]|e] sa] eqn:Hg.
      * eapply R_trans; [by eapply R_gtoken | by eapply R_mint].
      * simplify_eq. by eapply R_gtoken.
    + by eapply R_mint.
  - rewrite generate_bullet_token_func_no_session in Hrun by done. by simplify_eq.
Qed.

Lemma generate_bullet_token_preserves s r s' :
  generate_bullet_token s = (r, s') → R s s'.
Proof using R_refl R_trans R_gtoken R_mint.
  rewrite generate_bullet_token_eq. intros Hrun.
  destruct (generate_bullet_token_func s) as [[[]|e] s1] eqn:H1.
  - simplify_eq. by eapply generate_bullet_token_func_preserves.
  - apply generate_bullet_token_func_preserves in H1.
    destruct (is_SplatNetException e).
    + eapply R_trans; [done|]. by eapply generate_bullet_token_func_preserves.
    + by simplify_eq.
Qed.

Lemma generate_all_tokens_preserves s r s' :
  generate_all_tokens s = (r, s') → R s s'.
Proof using R_refl R_trans R_gtoken R_mint.
  unfold generate_all_tokens, bind. intros Hrun.
  destruct (generate_gtoken s) as [[[]|e] s1] eqn:Hg.
  - eapply R_trans; [by eapply R_gtoken | by eapply generate_bullet_token_preserves].
  - simplify_eq. by eapply R_gtoken.
Qed.

Lemma test_tokens_preserves user_agent s r s' :
  test_tokens user_agent s = (r, s') → R s s'.
Proof using R_refl R_trans R_gtoken R_mint R_log.
  unfold test_tokens. intros Hrun.
  unfold bind at 1 in Hrun. rewrite get_spec in Hrun.
  destruct (_tokens (self s) !! SESSION_TOKEN); [|by simplify_eq].
  unfold bind at 1 in Hrun. rewrite token_is_valid_spec in Hrun.
  unfold bind at 1 in Hrun.
  match type of Hrun with context [if ?b then generate_gtoken else _] =>
    destruct ((if b then generate_gtoken else ret tt) s) as [r1 s1] eqn:H1;
    assert (Hp1 : R s s1)
      by (destruct b;
          [by eapply R_gtoken
          |unfold ret in H1; by simplify_eq])
  end.
  clear H1. apply (R_trans _ _ _ Hp1). clear Hp1 s.
  destruct r1 as [[]|e]; [|by simplify_eq].
  unfold bind at 1 in Hrun. rewrite token_is_valid_spec in Hrun.
  unfold bind at 1 in Hrun.
  match type of Hrun with context [if ?b then generate_bullet_token else _] =>
    destruct ((if b then generate_bullet_token else ret tt) s1) as [r2 s2] eqn:H2;
    assert (Hp2 : R s1 s2)
      by (destruct b;
          [by eapply generate_bullet_token_preserves
          |unfold ret in H2; by simplify_eq])
  end.
  clear H2. apply (R_trans _ _ _ Hp2). clear Hp2 s1.
  destruct r2 as [[]|e]; [|by simplify_eq].
  unfold bind at 1 in Hrun. rewrite get_spec in Hrun.
  destruct (_tokens (self s2) !! BULLET_TOKEN) as [tb|]; [|by simplify_eq].
  unfold bind at 1 in Hrun. rewrite data_getitem_spec in Hrun.
  destruct (_data (self s2) !! "language") as [language|]; [|by simplify_eq].
  unfold bind at 1 in Hrun. rewrite get_spec in Hrun.
  destruct (_tokens (self s2) !! GTOKEN) as [tg|]; [|by simplify_eq].
  unfold bind at 1 in Hrun. rewrite call_post_spec in Hrun.
  destruct (requests_post _ _ _ _ _) as [status|e]; [|simplify_eq; by apply R_log].
  eapply R_trans; [apply R_log|].
  destruct (negb (Z.eqb status 200)).
  - by eapply generate_all_tokens_preserves.
  - unfold ret in Hrun. by simplify_eq.
Qed.
End Preserves.

Lemma test_tokens_keeps_types user_agent s r s' :
  test_tokens user_agent s = (r, s') → keeps_types s s'.
Proof.
  apply (test_tokens_preserves keeps_types).
  - by intros ? ?.
  - intros s1 s2 s3 H12 H23 k Hk. by apply H23, H12.
  - intros s1 r1 s1' H k Hk. by eapply generate_gtoken_keeps.
  - intros s1 r1 s1' H k Hk. apply mint_inv in H as (_ & _ & _ & H). by apply H.
  - by intros ? ? ?.
Qed.

(** *** [from_env], [from_text_file] and [load] *)

(** The loop of [from_env] adds what the environment holds, one token after
    the other, as the loop of [from_config_file] does, unless it stops at
    the Session token. *)
Lemma foldl_insert_item_is_Some (l : list (string * string)) (acc : gmap string string) k :
  is_Some (acc !! k) ∨ (∃ v, (k, v) ∈ l) → is_Some (foldl insert_item acc l !! k).
Proof.
  revert acc. induction l as [|[k' x'] l IH]; intros acc [Hacc|[v Hl]]; cbn [foldl].
  - done.
  - by apply not_elem_of_nil in Hl.
  - apply IH. left. unfold insert_item. rewrite lookup_insert_is_Some'. by right.
  - apply IH. apply elem_of_cons in Hl as [Heq|Hl].
    + left. simplify_eq. unfold insert_item. cbn [fst snd]. by rewrite lookup_insert_eq.
    + right. by exists v.
Qed.

Lemma load_token_eq s option token :
  load_token s (option, token)
  = added token option None
      (if String.eqb option SESSION_TOKEN
       then set_nso (with_session_token (Some token)) s
       else if String.eqb option GTOKEN
       then set_nso (with_gtoken (Some token)) s
       else s).
Proof. reflexivity. Qed.

Lemma from_env_loop_returns (l : list (string * string)) (s : St) :
  existsb (fun '(token, var) =>
             String.eqb token SESSION_TOKEN
             && negb (bool_decide (is_Some (os_environ !! var)))) l = false →
  for_each l from_env_round s
  = (Return tt,
     foldl load_token s
       (omap (fun '(token, var) => (fun v => (token, v)) <$> os_environ !! var) l)).
Proof.
  revert s. induction l as [|[token var] l IH]; intros s Hex; [done|].
  cbn [existsb] in Hex. apply orb_false_elim in Hex as [Hhd Htl].
  cbn [for_each omap list_omap]. unfold bind at 1. unfold from_env_round at 1. cbv zeta.
  destruct (String.eqb token SESSION_TOKEN) eqn:E1.
  - destruct (os_environ !! var) as [v|] eqn:Ev.
    + cbn [fmap option_fmap option_map foldl]. unfold bind at 1, modify at 1.
      rewrite add_token_str, (IH _ Htl).
      by rewrite load_token_eq, E1.
    + rewrite bool_decide_eq_false_2 in Hhd by (by intros [? ?]). done.
  - destruct (os_environ !! var) as [v|] eqn:Ev.
    + cbn [fmap option_fmap option_map foldl]. unfold bind at 1.
      destruct (String.eqb token GTOKEN) eqn:E2;
        [unfold modify at 1 | unfold ret at 1];
        rewrite add_token_str, (IH _ Htl);
        by rewrite load_token_eq, E1, E2.
    + cbn [fmap option_fmap option_map]. unfold ret at 1. by rewrite (IH _ Htl).
Qed.

Lemma from_env_round_world item s :
  world (from_env_round item s).2 = world s.
Proof.
  destruct item as [token var]. unfold from_env_round. cbv zeta.
  destruct (String.eqb token SESSION_TOKEN).
  - destruct (os_environ !! var); [|done].
    unfold bind, modify. rewrite add_token_str. cbn [snd]. by rewrite added_world.
  - destruct (os_environ !! var); [|done].
    unfold bind. destruct (String.eqb token GTOKEN); unfold modify, ret;
      rewrite add_token_str; cbn [snd]; by rewrite added_world.
Qed.

Lemma from_env_loop_raises (l : list (string * string)) (s : St) :
  existsb (fun '(token, var) =>
             String.eqb token SESSION_TOKEN
             && negb (bool_decide (is_Some (os_environ !! var)))) l = true →
  ∃ s', for_each l from_env_round s
        = (Raise (ValueError "Session token environment variable not set."), s')
        ∧ world s' = world s.
Proof.
  revert s. induction l as [|[token var] l IH]; intros s Hex; [done|].
  cbn [existsb] in Hex. cbn [for_each]. unfold bind at 1.
  destruct (String.eqb token SESSION_TOKEN && negb (bool_decide (is_Some (os_environ !! var))))
    eqn:Hhd.
  - apply andb_true_iff in Hhd as [E1 Hv].
    apply negb_true_iff, bool_decide_eq_false in Hv.
    unfold from_env_round. cbv zeta. rewrite E1.
    destruct (os_environ !! var) eqn:Ev; [by destruct Hv; eauto|].
    by eexists.
  - cbn [orb] in Hex.
    pose proof (from_env_round_world (token, var) s) as Hw.
    destruct (from_env_round (token, var) s) as [[[]|e] s1] eqn:Hround.
    + destruct (IH s1 Hex) as (s' & -> & Hs'). eexists. split; [done|].
      cbn [snd] in Hw. congruence.
    + exfalso. unfold from_env_round in Hround. cbv zeta in Hround.
      destruct (String.eqb token SESSION_TOKEN); cbn [andb] in Hhd.
      * destruct (os_environ !! var) eqn:Ev.
        -- unfold bind, modify in Hround. by rewrite add_token_str in Hround.
        -- by rewrite bool_decide_eq_false_2 in Hhd by (by intros [? ?]).
      * destruct (os_environ !! var); [|done].
        unfold bind in Hround.
        destruct (String.eqb token GTOKEN); unfold modify, ret in Hround;
          by rewrite add_token_str in Hround.
Qed.

(** X15. [from_env] raises [ValueError] when the variable of the Session
    token is not set, whatever else the environment holds, and makes no
    remote call. *)
Theorem from_env_without_session_variable (var : string) (w : World) :
  (SESSION_TOKEN, var) ∈ ENV_VAR_NAMES →
  os_environ !! var = None →
  from_env w
  = (Raise (ValueError "Session token environment variable not set."), w).
Proof.
  intros Hin Hvar.
  assert (Hex : session_variable_unset = true).
  { unfold session_variable_unset. apply existsb_exists. exists (SESSION_TOKEN, var).
    split; [by apply list_elem_of_In|].
    rewrite String.eqb_refl, Hvar.
    by rewrite bool_decide_eq_false_2 by (by intros [? ?]). }
  unfold from_env, construct, from_env_body. unfold bind at 1.
  destruct (from_env_loop_raises ENV_VAR_NAMES
              {| world := w; self := init NSO_new_instance |} Hex) as (s' & -> & Hw).
  by rewrite Hw.
Qed.

(** X16. A manager returned by [from_env] has the origin [env] and holds a
    token of every type whose variable is set. *)
Theorem from_env_result (w w' : World) (m : TokenManager_obj) :
  from_env w = (Return m, w') →
  _origin m = Some ("env", None)
  ∧ ∀ token var, (token, var) ∈ ENV_VAR_NAMES → is_Some (os_environ !! var) →
                 is_Some (_tokens m !! token).
Proof.
  unfold from_env, construct, from_env_body. unfold bind at 1.
  destruct (session_variable_unset) eqn:Hex.
  { destruct (from_env_loop_raises ENV_VAR_NAMES
                {| world := w; self := init NSO_new_instance |} Hex) as (s' & -> & Hw).
    done. }
  rewrite (from_env_loop_returns _ _ Hex).
  unfold bind at 1, flag_origin, modify at 1.
  set (loaded := foldl load_token _ _).
  destruct (test_tokens None (set_origin (Some ("env", None)) loaded))
    as [[[]|e] s] eqn:Hrun; [|done].
  intros ?; simplify_eq. split.
  - by apply test_tokens_origin in Hrun as ->.
  - intros token var Hin [v Hv].
    apply test_tokens_keeps_types in Hrun. apply Hrun.
    cbn [set_origin self _tokens].
    destruct (foldl_load_token_frame
                (omap (fun '(token, var) => (fun v => (token, v)) <$> os_environ !! var)
                   ENV_VAR_NAMES)
                {| world := w; self := init NSO_new_instance |}) as (_ & _ & Htok).
    fold loaded in Htok. cbn [self init _tokens] in Htok. rewrite fmap_empty in Htok.
    assert (Hin' : (token, v) ∈ omap (fun '(token, var) =>
                                        (fun v => (token, v)) <$> os_environ !! var)
                                     ENV_VAR_NAMES).
    { apply list_elem_of_omap. exists (token, var). split; [done|]. by rewrite Hv. }
    pose proof (foldl_insert_item_is_Some _ ∅ token (or_intror (ex_intro _ v Hin')))
      as Hsome.
    rewrite <- Htok, lookup_fmap in Hsome.
    by apply fmap_is_Some in Hsome.
Qed.

(** X17. [from_text_file] raises [ValueError] when the object read from the
    file has no key [session_token], and changes and calls nothing. *)
Theorem from_text_file_without_session (path : string) (w : World)
        (data : gmap string string) :
  json_files !! path = Some data →
  data !! "session_token" = None →
  from_text_file path w
  = (Raise (ValueError "Session token not found in text file."), w).
Proof.
  intros Hf Hs. unfold from_text_file, construct, from_text_file_body.
  by rewrite Hf, Hs.
Qed.

Lemma unpack_acc_loc_raises acc_loc s :
  length (Py.split "|" acc_loc) ≠ 2%nat →
  ∃ msg, unpack_acc_loc acc_loc s = (Raise (ValueError msg), s).
Proof.
  intros Hlen. unfold unpack_acc_loc.
  destruct (Py.split "|" acc_loc) as [|a [|b [|c l]]]; try done; by eexists.
Qed.

(** X18. The field [acc_loc] of the text file must hold exactly one [|]:
    otherwise [from_text_file] raises [ValueError] when it unpacks the
    parts, before any remote call. *)
Theorem from_text_file_malformed_acc_loc (path : string) (w : World)
        (data : gmap string string) (session_token acc_loc : string) :
  json_files !! path = Some data →
  data !! "session_token" = Some session_token →
  data !! "acc_loc" = Some acc_loc →
  length (Py.split "|" acc_loc) ≠ 2%nat →
  ∃ msg, from_text_file path w = (Raise (ValueError msg), w).
Proof.
  intros Hf Hs Ha Hlen. unfold from_text_file, construct, from_text_file_body.
  rewrite Hf, Hs, Ha.
  unfold bind at 1, add_session_token at 1. unfold bind at 1. rewrite add_token_str.
  unfold modify at 1. unfold bind at 1, flag_origin, modify at 1. unfold bind at 1.
  match goal with |- context [unpack_acc_loc acc_loc ?s] =>
    destruct (unpack_acc_loc_raises acc_loc s Hlen) as (msg & ->) end.
  exists msg. cbn [world set_origin set_nso]. by rewrite added_world.
Qed.

(** X19. A manager returned by [from_text_file] has the origin [text_file]
    with the path it was read from, and holds the Session token; it holds a
    gtoken and a bullet token when the file has the keys [gtoken] and
    [bullettoken]. *)
Theorem from_text_file_result (path : string) (w w' : World) (m : TokenManager_obj) :
  from_text_file path w = (Return m, w') →
  _origin m = Some ("text_file", Some path)
  ∧ is_Some (_tokens m !! SESSION_TOKEN)
  ∧ ∃ data, json_files !! path = Some data
            ∧ (is_Some (data !! "gtoken") → is_Some (_tokens m !! GTOKEN))
            ∧ (is_Some (data !! "bullettoken") → is_Some (_tokens m !! BULLET_TOKEN)).
Proof.
  unfold from_text_file, construct, from_text_file_body.
  destruct (json_files !! path) as [data|]; [|done].
  destruct (data !! "session_token") as [session_token|]; [|done].
  unfold bind at 1, add_session_token at 1. unfold bind at 1. rewrite add_token_str.
  unfold modify at 1. unfold bind at 1, flag_origin, modify at 1.
  set (s1 := set_origin _ _).
  assert (Ho1 : _origin (self s1) = Some ("text_file", Some path)) by done.
  assert (Hs1 : is_Some (_tokens (self s1) !! SESSION_TOKEN)).
  { unfold s1. cbn [set_origin set_nso self _tokens].
    by rewrite added_tokens, lookup_insert_eq. }
  clearbody s1. unfold bind at 1.
  match goal with |- context [match data !! "acc_loc" with _ => _ end s1] =>
    destruct (match data !! "acc_loc" with
              | Some acc_loc => unpack_acc_loc acc_loc
              | None => ret tt
              end s1) as [r2 s2] eqn:H2 end.
  assert (Hs2 : _origin (self s2) = _origin (self s1) ∧ _tokens (self s2) = _tokens (self s1)).
  { destruct (data !! "acc_loc") as [a|]; [|unfold ret in H2; by simplify_eq].
    unfold unpack_acc_loc in H2.
    destruct (Py.split "|" a) as [|x [|y [|z l]]]; unfold raise, bind, modify in H2;
      by simplify_eq. }
  destruct Hs2 as [Ho2 Ht2]. destruct r2 as [[]|e]; [|done]. clear H2.
  unfold bind at 1.
  set (s3 := (match data !! "gtoken" with
              | Some gtoken => add_token (Str gtoken) (Some GTOKEN) None
              | None => ret tt
              end s2).2).
  assert (H3 : match data !! "gtoken" with
               | Some gtoken => add_token (Str gtoken) (Some GTOKEN) None
               | None => ret tt
               end s2 = (Return tt, s3)).
  { unfold s3. destruct (data !! "gtoken"); [by rewrite add_token_str | done]. }
  rewrite H3.
  assert (Hk3 : _origin (self s3) = _origin (self s2) ∧ keeps_types s2 s3
                ∧ (is_Some (data !! "gtoken") → is_Some (_tokens (self s3) !! GTOKEN))).
  { unfold s3. destruct (data !! "gtoken") as [g|].
    - rewrite add_token_str. cbn [snd]. rewrite added_origin. split_and!; [done| |].
      + intros k Hk. rewrite added_tokens, lookup_insert_is_Some'. by right.
      + intros _. by rewrite added_tokens, lookup_insert_eq.
    - split_and!; [done | by intros ? ? | by intros [? ?]]. }
  destruct Hk3 as (Ho3 & Hk3 & Hg3). clearbody s3. clear H3.
  unfold bind at 1.
  set (s4 := (match data !! "bullettoken" with
              | Some b => add_token (Str b) (Some BULLET_TOKEN) None
              | None => ret tt
              end s3).2).
  assert (H4 : match data !! "bullettoken" with
               | Some b => add_token (Str b) (Some BULLET_TOKEN) None
               | None => ret tt
               end s3 = (Return tt, s4)).
  { unfold s4. destruct (data !! "bullettoken"); [by rewrite add_token_str | done]. }
  rewrite H4.
  assert (Hk4 : _origin (self s4) = _origin (self s3) ∧ keeps_types s3 s4
                ∧ (is_Some (data !! "bullettoken")
                   → is_Some (_tokens (self s4) !! BULLET_TOKEN))).
  { unfold s4. destruct (data !! "bullettoken") as [b|].
    - rewrite add_token_str. cbn [snd]. rewrite added_origin. split_and!; [done| |].
      + intros k Hk. rewrite added_tokens, lookup_insert_is_Some'. by right.
      + intros _. by rewrite added_tokens, lookup_insert_eq.
    - split_and!; [done | by intros ? ? | by intros [? ?]]. }
  destruct Hk4 as (Ho4 & Hk4 & Hb4). clearbody s4. clear H4.
  destruct (test_tokens None s4) as [[[]|e] s5] eqn:Hrun; [|done].
  intros ?; simplify_eq.
  pose proof (test_tokens_keeps_types _ _ _ _ Hrun) as Hk5.
  apply test_tokens_origin in Hrun.
  split_and!.
  - congruence.
  - apply Hk5, Hk4, Hk3. by rewrite Ht2.
  - exists data. split_and!; [done | |].
    + intros H. by apply Hk5, Hk4, Hg3.
    + intros H. by apply Hk5, Hb4.
Qed.

(** X20. [load] looks at the environment before [tokens.ini]: without the
    file [.splatnet3_scraper], one variable of [ENV_VAR_NAMES] that is set
    and not empty sends [load] to [from_env], so that with the variable of
    the Session token unset [load] raises [ValueError], whether or not
    [tokens.ini] is there. *)
Theorem load_env_without_session_variable (w : World) (token var session_var : string) :
  files w !! ".splatnet3_scraper" = None →
  (token, var) ∈ ENV_VAR_NAMES →
  Py.truthy (os_environ !! var) = true →
  (SESSION_TOKEN, session_var) ∈ ENV_VAR_NAMES →
  os_environ !! session_var = None →
  load w = (Raise (ValueError "Session token environment variable not set."), w).
Proof.
  intros Hfile Hin Hv Hsin Hsv. unfold load, path_exists.
  rewrite bool_decide_eq_false_2 by (rewrite Hfile; by intros [? ?]).
  assert (existsb (λ '(_, var), Py.truthy (os_environ !! var)) ENV_VAR_NAMES = true) as ->.
  { apply existsb_exists. exists (token, var). split; [by apply list_elem_of_In | done]. }
  unfold from_env, construct, from_env_body. unfold bind at 1.
  assert (Hex : session_variable_unset = true).
  { unfold session_variable_unset. apply existsb_exists. exists (SESSION_TOKEN, session_var).
    split; [by apply list_elem_of_In|].
    rewrite String.eqb_refl, Hsv.
    by rewrite bool_decide_eq_false_2 by (by intros [? ?]). }
  destruct (from_env_loop_raises ENV_VAR_NAMES
              {| world := w; self := init NSO_new_instance |} Hex) as (s' & -> & Hw).
  by rewrite Hw.
Qed.

(** X21. For [load] a variable that is set to the empty string counts as
    unset: without the file [.splatnet3_scraper] and with every variable of
    [ENV_VAR_NAMES] unset or empty, [load] reads [tokens.ini] when it is
    there, and raises [ValueError] without any remote call when it is
    not. *)
Theorem load_without_environment (w : World) :
  files w !! ".splatnet3_scraper" = None →
  (∀ token var, (token, var) ∈ ENV_VAR_NAMES →
                os_environ !! var = None ∨ os_environ !! var = Some "") →
  load w
  = if bool_decide (is_Some (files w !! "tokens.ini"))
    then from_config_file "tokens.ini" w
    else (Raise (ValueError
                   "No tokens found. Please create a .splatnet3_scraper file, set environment variables, or create a tokens.ini file."),
          w).
Proof.
  intros Hfile Henv. unfold load, path_exists.
  rewrite bool_decide_eq_false_2 by (rewrite Hfile; by intros [? ?]).
  assert (existsb (λ '(_, var), Py.truthy (os_environ !! var)) ENV_VAR_NAMES = false) as ->.
  { apply not_true_is_false. intros Hex. apply existsb_exists in Hex as ([token var] & Hin & Hv).
    apply list_elem_of_In in Hin. destruct (Henv _ _ Hin) as [H|H]; by rewrite H in Hv. }
  done.
Qed.

(** [load] prefers the file [.splatnet3_scraper] to everything else:
    when it exists and has no [tokens] section, [load] raises the
    [ValueError] of [from_config_file], whatever the environment and
    [tokens.ini] hold. *)
Theorem load_prefers_config_file (w : World) (config : ConfigDoc) :
  files w !! ".splatnet3_scraper" = Some config →
  config !! "tokens" = None →
  load w = (Raise (ValueError "Config file does not have a 'tokens' section."), w).
Proof.
  intros Hfile Ht. unfold load, path_exists.
  rewrite bool_decide_eq_true_2 by (rewrite Hfile; by eexists).
  unfold from_config_file, construct. rewrite from_config_file_body_eq. cbv zeta.
  cbn [world]. rewrite Hfile. cbn [default from_option]. unfold id. by rewrite Ht.
Qed.

End WithEnvironment.
End TokenManager.

(** ** Expiration of a token *)

(** *** The order and the subtraction of binary64 numbers *)

Module Binary64.
Import Float.

Local Open Scope Z_scope.

Lemma digits2_pos_bounds (m : positive) :
  2 ^ (Z.pos (digits2_pos m) - 1) <= Z.pos m < 2 ^ Z.pos (digits2_pos m).
Proof.
  induction m as [m IH|m IH|]; cbn [digits2_pos].
  - rewrite Pos2Z.inj_succ, Z.pow_succ_r by lia.
    replace (Z.succ (Z.pos (digits2_pos m)) - 1) with (Z.succ (Z.pos (digits2_pos m) - 1)) by lia.
    rewrite Z.pow_succ_r by lia. lia.
  - rewrite Pos2Z.inj_succ, Z.pow_succ_r by lia.
    replace (Z.succ (Z.pos (digits2_pos m)) - 1) with (Z.succ (Z.pos (digits2_pos m) - 1)) by lia.
    rewrite Z.pow_succ_r by lia. lia.
  - simpl. lia.
Qed.

Lemma iter_xO (m d : positive) : Z.pos (Pos.iter xO m d) = Z.pos m * 2 ^ Z.pos d.
Proof.
  induction d as [|d IH] using Pos.peano_ind.
  - simpl. lia.
  - rewrite Pos.iter_succ, Pos2Z.inj_succ, Z.pow_succ_r by lia.
    rewrite Pos2Z.inj_xO, IH. lia.
Qed.

Lemma shl_align_spec (mx : positive) (ex ez : Z) :
  ez <= ex → Z.pos (fst (shl_align mx ex ez)) = Z.pos mx * 2 ^ (ex - ez).
Proof.
  intros H. unfold shl_align.
  destruct (ez - ex) as [|d|d] eqn:E; cbn [fst].
  - replace (ex - ez) with 0 by lia. lia.
  - lia.
  - rewrite iter_xO. f_equal. f_equal. lia.
Qed.


Lemma bounded_inv (m : positive) (e : Z) :
  bounded prec emax m e = true →
  -1074 <= e <= 971
  ∧ Z.pos (digits2_pos m) <= 53
  ∧ (-1074 < e → Z.pos (digits2_pos m) = 53).
Proof.
  unfold bounded, canonical_mantissa, fexp, SpecFloat.emin, prec, emax.
  intros H. apply andb_prop in H as [H1 H2].
  apply Z.eqb_eq in H1. apply Z.leb_le in H2. lia.
Qed.

Lemma aligned_lt_exp (mx my : positive) (ex ey : Z) :
  bounded prec emax mx ex = true → bounded prec emax my ey = true →
  ex < ey →
  Z.pos mx < Z.pos my * 2 ^ (ey - ex).
Proof.
  intros Hx Hy Hlt.
  apply bounded_inv in Hx as (Hex & Hdx & _).
  apply bounded_inv in Hy as (Hey & _ & Hdy).
  specialize (Hdy ltac:(lia)).
  pose proof (digits2_pos_bounds mx) as [_ Hmx].
  pose proof (digits2_pos_bounds my) as [Hmy _].
  rewrite Hdy in Hmy. change (2 ^ (53 - 1)) with 4503599627370496 in Hmy.
  assert (Z.pos mx < 9007199254740992).
  { eapply Z.lt_le_trans; [exact Hmx|].
    change 9007199254740992 with (2 ^ 53). apply Z.pow_le_mono_r; lia. }
  assert (2 ^ 1 <= 2 ^ (ey - ex)) by (apply Z.pow_le_mono_r; lia).
  change (2 ^ 1) with 2 in *. nia.
Qed.

Lemma SFcompare_finite (sx sy : bool) (mx my : positive) (ex ey : Z) :
  bounded prec emax mx ex = true → bounded prec emax my ey = true →
  SFcompare (S754_finite sx mx ex) (S754_finite sy my ey)
  = Some (aligned sx mx ex (Z.min ex ey) ?= aligned sy my ey (Z.min ex ey)).
Proof.
  intros Hx Hy. unfold aligned.
  rewrite !shl_align_spec by lia.
  assert (Hpx : 0 < Z.pos mx * 2 ^ (ex - Z.min ex ey))
    by (apply Z.mul_pos_pos; [lia | apply Z.pow_pos_nonneg; lia]).
  assert (Hpy : 0 < Z.pos my * 2 ^ (ey - Z.min ex ey))
    by (apply Z.mul_pos_pos; [lia | apply Z.pow_pos_nonneg; lia]).
  assert (Hcmp : (Z.pos mx * 2 ^ (ex - Z.min ex ey) ?= Z.pos my * 2 ^ (ey - Z.min ex ey))
                 = match ex ?= ey with
                   | Lt => Lt | Gt => Gt | Eq => Pos.compare_cont Eq mx my end).
  { destruct (Z.compare_spec ex ey) as [Heq|Hlt|Hgt].
    - subst ey. rewrite Z.min_id, Z.sub_diag, !Z.mul_1_r. reflexivity.
    - rewrite Z.min_l by lia. rewrite Z.sub_diag, Z.mul_1_r.
      apply Z.compare_lt_iff. by apply aligned_lt_exp.
    - rewrite Z.min_r by lia. rewrite Z.sub_diag, Z.mul_1_r.
      apply Z.compare_gt_iff. by apply aligned_lt_exp. }
  unfold SFcompare. destruct sx, sy; cbn [cond_Zopp].
  - rewrite Z.compare_opp, (Z.compare_antisym (Z.pos mx * _)), Hcmp.
    f_equal. destruct (ex ?= ey); try reflexivity.
  - f_equal. symmetry. apply Z.compare_lt_iff. lia.
  - f_equal. symmetry. apply Z.compare_gt_iff. lia.
  - by rewrite Hcmp.
Qed.


(** *** The sign of a rounded number *)










Local Close Scope Z_scope.

Lemma Prim2SF_not_infinity (x : float) (s : bool) :
  is_infinity x = false → Prim2SF x ≠ S754_infinity s.
Proof.
  unfold is_infinity. rewrite FloatAxioms.eqb_spec, FloatAxioms.abs_spec. intros H E. rewrite E in H.
  by vm_compute in H.
Qed.



(** *** The number that a float stands for *)

Local Open Scope Q_scope.

Lemma Qpower_2_pos (e : Z) : (0 < 2 ^ e)%Q.
Proof. apply Qpower_0_lt. reflexivity. Qed.

Lemma SF2Q_aligned (s : bool) (m : positive) (e ez : Z) :
  (ez <= e)%Z →
  SF2Q (S754_finite s m e) == inject_Z (aligned s m e ez) * 2 ^ ez.
Proof.
  intros H. unfold SF2Q, aligned.
  assert (Hm : inject_Z (cond_Zopp s (Z.pos (shl_align m e ez).1))
               == inject_Z (cond_Zopp s (Z.pos m)) * 2 ^ (e - ez)).
  { rewrite shl_align_spec by done.
    rewrite <- (Zpower_Qpower 2) by lia.
    destruct s; cbn [cond_Zopp].
    - rewrite <- inject_Z_mult. apply inject_Z_injective. lia.
    - by rewrite <- inject_Z_mult. }
  rewrite Hm, <- Qmult_assoc, <- Qpower_plus by done.
  by replace (e - ez + ez)%Z with e by lia.
Qed.

Lemma Qcompare_mult_r (x y c : Q) : 0 < c → (x * c ?= y * c) = (x ?= y).
Proof.
  intros Hc. destruct (Qcompare_spec x y) as [H|H|H].
  - apply Qeq_alt. by rewrite H.
  - apply Qlt_alt. by apply Qmult_lt_r.
  - apply Qgt_alt. by apply Qmult_lt_r.
Qed.

Lemma SFcompare_SF2Q (x y : spec_float) :
  valid_binary x = true → valid_binary y = true →
  x ≠ S754_nan → y ≠ S754_nan →
  (∀ s, x ≠ S754_infinity s) → (∀ s, y ≠ S754_infinity s) →
  SFcompare x y = Some (SF2Q x ?= SF2Q y).
Proof.
  intros Hx Hy Hnx Hny Hix Hiy.
  assert (Hneg : ∀ m e, inject_Z (Z.neg m) * 2 ^ e < 0).
  { intros m e. apply (Qmult_lt_r _ _ (/ 2 ^ e)); [apply Qinv_lt_0_compat, Qpower_2_pos|].
    rewrite Qmult_0_l, <- Qmult_assoc, Qmult_inv_r, Qmult_1_r
      by (apply Qnot_eq_sym, Qlt_not_eq, Qpower_2_pos). reflexivity. }
  assert (Hpos : ∀ m e, 0 < inject_Z (Z.pos m) * 2 ^ e).
  { intros m e. apply Qmult_lt_0_compat; [reflexivity | apply Qpower_2_pos]. }
  destruct x as [sx|sx| |sx mx ex]; [|by destruct (Hix sx)|done|];
    (destruct y as [sy|sy| |sy my ey]; [|by destruct (Hiy sy)|done|]).
  - reflexivity.
  - cbn [SFcompare SF2Q]. f_equal. symmetry.
    destruct sy; cbn [cond_Zopp]; [apply Qgt_alt, (Hneg my) | apply Qlt_alt, (Hpos my)].
  - cbn [SFcompare SF2Q]. f_equal. symmetry.
    destruct sx; cbn [cond_Zopp]; [apply Qlt_alt, (Hneg mx) | apply Qgt_alt, (Hpos mx)].
  - cbn [valid_binary] in Hx, Hy.
    rewrite (SFcompare_finite _ _ _ _ _ _ Hx Hy). f_equal.
    rewrite (Qcompare_comp _ _ (SF2Q_aligned sx mx ex (Z.min ex ey) ltac:(lia))
               _ _ (SF2Q_aligned sy my ey (Z.min ex ey) ltac:(lia))).
    rewrite Qcompare_mult_r by apply Qpower_2_pos.
    unfold Qcompare. cbn [inject_Z Qnum Qden]. by rewrite !Z.mul_1_r.
Qed.

Lemma Prim2SF_not_nan (x : float) : is_nan x = false → Prim2SF x ≠ S754_nan.
Proof.
  unfold is_nan. rewrite FloatAxioms.eqb_spec. intros H E. rewrite E in H.
  by vm_compute in H.
Qed.

Lemma is_finite_inv (x : float) :
  is_finite x = true → is_nan x = false ∧ is_infinity x = false.
Proof. unfold is_finite. by destruct (is_nan x), (is_infinity x). Qed.

(** On finite floats [x <= y] is the order of the numbers they stand
    for. *)
Lemma leb_to_Q (x y : float) :
  is_finite x = true → is_finite y = true →
  (x <=? y)%float = true ↔ to_Q x <= to_Q y.
Proof.
  intros [Hnx Hix]%is_finite_inv [Hny Hiy]%is_finite_inv.
  rewrite FloatAxioms.leb_spec. unfold SFleb, to_Q.
  rewrite SFcompare_SF2Q;
    [| apply Prim2SF_valid | apply Prim2SF_valid
     | by apply Prim2SF_not_nan | by apply Prim2SF_not_nan
     | intros s; by apply Prim2SF_not_infinity
     | intros s; by apply Prim2SF_not_infinity ].
  rewrite Qle_alt. by destruct (_ ?= _).
Qed.

Lemma to_Q_not_finite (x : float) : is_finite x = false → to_Q x = 0.
Proof.
  unfold is_finite, to_Q, Prim2SF. intros H.
  destruct (is_nan x); [done|]. destruct (is_zero x); [done|].
  by destruct (is_infinity x).
Qed.

Lemma leb_zero_to_Q (x : float) : (x <=? 0)%float = true → to_Q x <= 0.
Proof.
  intros H. destruct (is_finite x) eqn:Hx.
  - by apply (leb_to_Q x 0%float Hx eq_refl).
  - by rewrite to_Q_not_finite.
Qed.

End Binary64.


(** C6, as stated, fails: the threshold is the binary64 sum of the time to
    live and the time of creation, which is rounded.  A gtoken (3600
    seconds) made at time 0.1 (the float [0x1.999999999999ap-4]) is expired
    at time 3600.1 (the float [0x1.c203333333333p+11]), which is before 0.1
    plus 3600 in exact arithmetic. *)
Lemma token_expired_before_ttl :
  (Float.to_Q 0x1.c203333333333p+11 < Float.to_Q 0x1.999999999999ap-4 + 3600)%Q
  ∧ Token.is_expired
      (Token.init Mock.TOKEN_EXPIRATIONS "gtoken-1" Mock.GTOKEN 0x1.999999999999ap-4)
      0x1.c203333333333p+11
    = true.
Proof. split; vm_compute; reflexivity. Qed.






(** ** The manager on the test double *)

Local Abbreviation fresh :=
  {| world := Mock.empty_world; self := TokenManager.init Mock.new_instance |}.
Local Abbreviation mock_add_token now :=
  (TokenManager.add_token Mock.GTOKEN Mock.TOKEN_EXPIRATIONS (Mock.time_at now)).
Local Abbreviation mock_add_session_token now :=
  (TokenManager.add_session_token Mock.SESSION_TOKEN Mock.GTOKEN Mock.TOKEN_EXPIRATIONS
     (Mock.time_at now)).
Local Abbreviation mock_generate_gtoken now :=
  (TokenManager.generate_gtoken Mock.SESSION_TOKEN Mock.GTOKEN Mock.TOKEN_EXPIRATIONS
     (Mock.time_at now) (Mock.get_gtoken "gtoken-1")).
Local Abbreviation mock_generate_bullet_token now script :=
  (TokenManager.generate_bullet_token Mock.SESSION_TOKEN Mock.GTOKEN Mock.BULLET_TOKEN
     Mock.TOKEN_EXPIRATIONS (Mock.time_at now) (Mock.get_gtoken "gtoken-1")
     (Mock.get_bullet_token script)).
Local Abbreviation mock_generate_all_tokens now script :=
  (TokenManager.generate_all_tokens Mock.SESSION_TOKEN Mock.GTOKEN Mock.BULLET_TOKEN
     Mock.TOKEN_EXPIRATIONS (Mock.time_at now) (Mock.get_gtoken "gtoken-1")
     (Mock.get_bullet_token script)).
Local Abbreviation mock_from_config_file now script status :=
  (TokenManager.from_config_file Mock.SESSION_TOKEN Mock.GTOKEN Mock.BULLET_TOKEN
     Mock.TOKEN_EXPIRATIONS (Mock.time_at now) Mock.new_instance
     (Mock.get_gtoken "gtoken-1") (Mock.get_bullet_token script) (Mock.post status)).
Local Abbreviation mock_save := (TokenManager.save Mock.version).

(** A manager made from the session token ["sess-abc"] at time 1000. *)
Local Abbreviation with_session :=
  (mock_add_session_token 1000%float "sess-abc" fresh).2.
(** The same manager after [generate_gtoken] at time 1000. *)
Local Abbreviation with_gtoken_1000 :=
  (mock_generate_gtoken 1000%float with_session).2.
(** The same manager after [generate_all_tokens] at time 1000. *)
Local Abbreviation with_all_tokens :=
  (mock_generate_all_tokens 1000%float ["bullet-1"] with_session).2.

(** The first answer of the minting call is empty, the second is not: two
    minting calls, and the method returns. *)
Lemma generate_bullet_token_retries_once_witness :
  (mock_generate_bullet_token 1000%float [""; "bullet-2"] with_session).1 = Return tt
  ∧ history (world (mock_generate_bullet_token 1000%float [""; "bullet-2"] with_session).2)
    = history (world with_gtoken_1000)
      ++ [GetBulletToken (nso (self with_gtoken_1000));
          GetBulletToken (nso (self with_gtoken_1000))]
  ∧ bullet_calls (mock_generate_bullet_token 1000%float [""; "bullet-2"] with_session).2
    = (bullet_calls with_session + 2)%nat.
Proof.
  apply (proj2 (TokenManager.generate_bullet_token_retries_once
                  Mock.SESSION_TOKEN Mock.GTOKEN Mock.BULLET_TOKEN Mock.TOKEN_EXPIRATIONS
                  (Mock.time_at 1000%float) (Mock.get_gtoken "gtoken-1")
                  (Mock.get_bullet_token [""; "bullet-2"]))
           with_session with_gtoken_1000 (nso (self with_gtoken_1000))
           (nso (self with_gtoken_1000)) "bullet-2").
  - vm_compute. discriminate.
  - split; [vm_compute; eauto|]. right. split; vm_compute; reflexivity.
  - vm_compute. reflexivity.
  - vm_compute. eauto.
  - vm_compute. reflexivity.
Defined.

(** Both answers of the minting call are empty: two minting calls, and the
    method raises [SplatNetException]; the third entry of the script is
    never asked for. *)
Example generate_bullet_token_gives_up :
  (mock_generate_bullet_token 1000%float [""; ""; "bullet-3"] with_session).1
  = Raise TokenManager.bullet_error
  ∧ bullet_calls (mock_generate_bullet_token 1000%float [""; ""; "bullet-3"] with_session).2
    = 2%nat.
Proof. split; vm_compute; reflexivity. Qed.



(** C5, as stated, fails: with an empty Session token in the keychain,
    [generate_gtoken] raises nothing and makes its remote call. *)
Lemma generate_gtoken_with_empty_session_token :
  Token.is_valid <$> _tokens (self (mock_add_session_token 1000%float "" fresh).2)
                       !! Mock.SESSION_TOKEN
  = Some false
  ∧ (mock_generate_gtoken 1000%float (mock_add_session_token 1000%float "" fresh).2).1 = Return tt
  ∧ gtoken_calls (mock_generate_gtoken 1000%float (mock_add_session_token 1000%float "" fresh).2).2
    = 1%nat.
Proof. split_and!; vm_compute; reflexivity. Qed.

Lemma derivations_require_session_entry_witness :
  (mock_generate_gtoken 1000%float fresh
   = (Raise (ValueError "Session token must be set before generating a gtoken."), fresh)
   ∧ mock_generate_bullet_token 1000%float ["bullet-1"] fresh
     = (Raise (ValueError "Session token must be set before generating a bullet token."),
        fresh))
  ∧ history (world (mock_generate_gtoken 1000%float with_session).2)
    = history (world with_session) ++ [GetGtoken (nso (self with_session))].
Proof.
  split.
  - apply (proj1 (TokenManager.derivations_require_session_entry
                    Mock.SESSION_TOKEN Mock.GTOKEN Mock.BULLET_TOKEN Mock.TOKEN_EXPIRATIONS
                    (Mock.time_at 1000%float) (Mock.get_gtoken "gtoken-1")
                    (Mock.get_bullet_token ["bullet-1"]) fresh)).
    vm_compute. reflexivity.
  - apply (proj2 (TokenManager.derivations_require_session_entry
                    Mock.SESSION_TOKEN Mock.GTOKEN Mock.BULLET_TOKEN Mock.TOKEN_EXPIRATIONS
                    (Mock.time_at 1000%float) (Mock.get_gtoken "gtoken-1")
                    (Mock.get_bullet_token ["bullet-1"]) with_session)).
    vm_compute. eauto.
Defined.

(** C8, as stated, fails: adding a gtoken changes a field of the
    collaborator. *)
Lemma add_token_gtoken_changes_nso :
  _gtoken (nso (self fresh)) = None
  ∧ _gtoken (nso (self (mock_add_token 1000%float (Str "gtoken-1") (Some Mock.GTOKEN) None
                          fresh).2))
    = Some "gtoken-1".
Proof. split; vm_compute; reflexivity. Qed.

Lemma keychain_kind_consistent_witness :
  TokenManager.kind_consistent
    (TokenManager.run_ops Mock.SESSION_TOKEN Mock.GTOKEN Mock.BULLET_TOKEN
       Mock.TOKEN_EXPIRATIONS (Mock.time_at 1000%float) (Mock.get_gtoken "gtoken-1")
       (Mock.get_bullet_token ["bullet-1"])
       [TokenManager.GenerateBulletToken;
        TokenManager.AddToken (Str "gtoken-2") (Some Mock.GTOKEN) None]
       with_session).
Proof.
  apply (proj1 (proj2 (TokenManager.keychain_kind_consistent
                  Mock.SESSION_TOKEN Mock.GTOKEN Mock.BULLET_TOKEN Mock.TOKEN_EXPIRATIONS
                  (Mock.time_at 1000%float) (Mock.get_gtoken "gtoken-1")
                  (Mock.get_bullet_token ["bullet-1"])))).
  change (map_Forall (λ k t, Token.token_type t = k) (_tokens (self with_session))).
  apply (bool_decide_unpack _). vm_compute. reflexivity.
Defined.



(** A world with no file, and a world whose file has a [tokens] section
    only. *)
Local Abbreviation tokens_only_world :=
  {| history := [];
     files := {[ "tokens.ini" :=
                   ({[ "tokens" := {[ "session_token" := "sess-abc" ]} ]} : ConfigDoc) ]} |}.


(** ** [utils.retry], for any number of tries *)

Lemma retry_stops {A : Type} (catches : exn → bool) (func : M A) (times : nat)
      (s s' : St) (r : outcome A) :
  func s = (r, s') →
  match r with Return _ => True | Raise e => catches e = false end →
  retry times catches func s = (r, s').
Proof.
  intros Hf Hr. destruct times as [|times]; cbn [retry]; [done|].
  rewrite Hf. destruct r as [a|e]; [done|]. by rewrite Hr.
Qed.

(** X22. [retry(times, exceptions)] calls the function [times + 1] times at
    most: a count that one call of the function raises by one at most is
    raised by [times + 1] at most by the decorated function. *)
Theorem retry_at_most_times_plus_one
        {A : Type} (catches : exn → bool) (func : M A) (calls_of : St → nat)
        (times : nat) (s : St) :
  (∀ s, calls_of (func s).2 ≤ calls_of s + 1)%nat →
  (calls_of (retry times catches func s).2 ≤ calls_of s + (times + 1))%nat.
Proof.
  intros Hone. revert s. induction times as [|times IH]; intros s; cbn [retry].
  - specialize (Hone s). lia.
  - specialize (Hone s). destruct (func s) as [[a|e] s'] eqn:Hf; cbn [snd] in *; [lia|].
    destruct (catches e); cbn [snd]; [|lia].
    specialize (IH s'). lia.
Qed.

(** X23. When every call of the function raises an exception that [retry]
    catches, the decorated function calls it exactly [times + 1] times and
    then raises the exception of the last call. *)
Theorem retry_raises_after_last_try
        {A : Type} (catches : exn → bool) (func : M A) (calls_of : St → nat)
        (times : nat) (s : St) :
  (∀ s, calls_of (func s).2 = calls_of s + 1)%nat →
  (∀ s, ∃ e, (func s).1 = Raise e ∧ catches e = true) →
  (∃ e, (retry times catches func s).1 = Raise e ∧ catches e = true)
  ∧ calls_of (retry times catches func s).2 = (calls_of s + (times + 1))%nat.
Proof.
  intros Hone Hraise. revert s. induction times as [|times IH]; intros s; cbn [retry].
  - specialize (Hone s). split; [by apply Hraise | lia].
  - specialize (Hone s). destruct (Hraise s) as (e & He & Hc).
    destruct (func s) as [r s'] eqn:Hf. cbn [fst snd] in *. subst r. rewrite Hc.
    destruct (IH s') as [IH1 IH2]. split; [done | lia].
Qed.

(** X24. The decorated function stops at the first call that returns or
    that raises an exception [retry] does not catch: after [k] calls that
    raised caught exceptions, with [k] no more than [times], the outcome
    and the state are those of the next call, however many tries are
    left. *)
Theorem retry_stops_at_first_outcome
        {A : Type} (catches : exn → bool) (func : M A) (times k : nat)
        (s sk s' : St) (r : outcome A) :
  nsteps (λ s1 s2, ∃ e, func s1 = (Raise e, s2) ∧ catches e = true) k s sk →
  func sk = (r, s') →
  match r with Return _ => True | Raise e => catches e = false end →
  (k ≤ times)%nat →
  retry times catches func s = (r, s').
Proof.
  intros Hsteps Hf Hr. revert times.
  induction Hsteps as [s|k s s1 sk (e & He & Hc) Hsteps IH]; intros times Hk.
  - by apply retry_stops.
  - destruct times as [|times]; [lia|]. cbn [retry]. rewrite He, Hc.
    apply IH; [done | lia].
Qed.

(** ** [utils.linearize_json] *)

Lemma json_ind' (P : Json.json → Prop) :
  P Json.JNull → (∀ b, P (Json.JBool b)) → (∀ z, P (Json.JInt z)) →
  (∀ x, P (Json.JFloat x)) → (∀ s, P (Json.JStr s)) →
  (∀ l, Forall P l → P (Json.JList l)) →
  (∀ items, Forall (λ kv, P kv.2) items → P (Json.JDict items)) →
  ∀ j, P j.
Proof.
  intros HN HB HI HF HS HL HD. fix IH 1. intros [|b|z|x|s|l|items].
  - exact HN.
  - apply HB.
  - apply HI.
  - apply HF.
  - apply HS.
  - apply HL. revert l. fix IHl 1. intros [|x l]; constructor; [apply IH | apply IHl].
  - apply HD. revert items. fix IHi 1. intros [|[k v] items]; constructor;
      [apply IH | apply IHi].
Qed.

(** The induction that follows the recursive calls of [linearize_json]: on
    the values of a dict and on the items of a list that is the value of a
    dict. *)
Lemma linearize_json_ind (P : Json.json → Prop) :
  (∀ j, Json.is_dict j = false → P j) →
  (∀ items,
     Forall (λ kv, P kv.2 ∧ ∀ l, kv.2 = Json.JList l → Forall P l) items →
     P (Json.JDict items)) →
  ∀ j, P j.
Proof.
  intros Hleaf Hdict j.
  cut (P j ∧ ∀ l, j = Json.JList l → Forall P l); [by intros [? _]|].
  induction j as [|b|z|x|s|l IH|items IH] using json_ind'.
  - split; [by apply Hleaf | done].
  - split; [by apply Hleaf | done].
  - split; [by apply Hleaf | done].
  - split; [by apply Hleaf | done].
  - split; [by apply Hleaf | done].
  - split; [by apply Hleaf|]. intros l' [= <-].
    eapply Forall_impl; [exact IH|]. by intros x [? _].
  - split; [|done]. by apply Hdict.
Qed.

Lemma linearize_json_dict (items : list (string * Json.json)) :
  Json.linearize_json (Json.JDict items) = Json.linearize_items items.
Proof. reflexivity. Qed.

Lemma linearize_items_cons key value items :
  Json.linearize_items ((key, value) :: items)
  = ((Json.linearize_value key value).1 ++ (Json.linearize_items items).1,
     (Json.linearize_value key value).2 ++ (Json.linearize_items items).2).
Proof.
  change (Json.linearize_items ((key, value) :: items))
    with (let '(keys, values) := Json.linearize_value key value in
          let '(keys', values') := Json.linearize_items items in
          (keys ++ keys', values ++ values')).
  by destruct (Json.linearize_value key value), (Json.linearize_items items).
Qed.

Lemma linearize_list_cons key i item l :
  Json.linearize_list key i (item :: l)
  = ((Json.linearize_item key i item).1 ++ (Json.linearize_list key (S i) l).1,
     (Json.linearize_item key i item).2 ++ (Json.linearize_list key (S i) l).2).
Proof.
  change (Json.linearize_list key i (item :: l))
    with (let '(keys, values) := Json.linearize_item key i item in
          let '(keys', values') := Json.linearize_list key (S i) l in
          (keys ++ keys', values ++ values')).
  by destruct (Json.linearize_item key i item), (Json.linearize_list key (S i) l).
Qed.

Lemma linearize_json_lengths_any (json_data : Json.json) :
  length (Json.linearize_json json_data).1 = length (Json.linearize_json json_data).2.
Proof.
  induction json_data as [j Hj|items IH] using linearize_json_ind.
  - by destruct j.
  - rewrite linearize_json_dict.
    induction items as [|[key value] items IHitems]; [done|].
    apply Forall_cons in IH as [[Hv Hl] IH]. specialize (IHitems IH).
    cbn [fst snd] in Hv, Hl.
    rewrite linearize_items_cons. cbn [fst snd]. rewrite !length_app, IHitems.
    f_equal. clear IHitems IH.
    destruct value as [|b|z|x|s|l|sub]; try done.
    + specialize (Hl l eq_refl). cbn [Json.linearize_value]. clear Hv.
      generalize 0%nat. induction l as [|item l IHl]; intros i; [done|].
      apply Forall_cons in Hl as [Hitem Hl].
      rewrite linearize_list_cons. cbn [fst snd]. rewrite !length_app, (IHl Hl).
      f_equal. destruct item; try done.
      unfold Json.linearize_item.
      destruct (Json.linearize_json (Json.JDict items0)) as [ks vs].
      cbn [fst snd] in *. by rewrite length_map.
    + unfold Json.linearize_value.
      destruct (Json.linearize_json (Json.JDict sub)) as [ks vs].
      cbn [fst snd] in *. by rewrite length_map.
Qed.

(** X25. [linearize_json] gives as many keys as values. *)
Theorem linearize_json_lengths (items : list (string * Json.json)) :
  length (Json.linearize_json (Json.JDict items)).1
  = length (Json.linearize_json (Json.JDict items)).2.
Proof. apply linearize_json_lengths_any. Qed.

Lemma linearize_json_values_not_dict_any (json_data : Json.json) :
  Forall (λ value, Json.is_dict value = false) (Json.linearize_json json_data).2.
Proof.
  induction json_data as [j Hj|items IH] using linearize_json_ind.
  - destruct j; try done; constructor.
  - rewrite linearize_json_dict.
    induction items as [|[key value] items IHitems]; [constructor|].
    apply Forall_cons in IH as [[Hv Hl] IH]. specialize (IHitems IH).
    cbn [fst snd] in Hv, Hl.
    rewrite linearize_items_cons. cbn [fst snd]. apply Forall_app. split; [|done].
    clear IHitems IH.
    destruct value as [|b|z|x|s|l|sub]; try (by repeat constructor).
    + specialize (Hl l eq_refl). cbn [Json.linearize_value]. clear Hv.
      generalize 0%nat. induction l as [|item l IHl]; intros i; [constructor|].
      apply Forall_cons in Hl as [Hitem Hl].
      rewrite linearize_list_cons. cbn [fst snd]. apply Forall_app. split; [|by apply IHl].
      destruct item; try (by repeat constructor).
      unfold Json.linearize_item.
      by destruct (Json.linearize_json (Json.JDict items0)) as [ks vs].
    + unfold Json.linearize_value.
      by destruct (Json.linearize_json (Json.JDict sub)) as [ks vs].
Qed.

(** X26. No value that [linearize_json] gives is a dict: dicts are always
    opened, wherever the function meets them. *)
Theorem linearize_json_values_not_dict (items : list (string * Json.json)) :
  Forall (λ value, Json.is_dict value = false)
    (Json.linearize_json (Json.JDict items)).2.
Proof. apply linearize_json_values_not_dict_any. Qed.

(** X27. A dict whose values are neither dicts nor lists comes out as it
    is: its keys in order, and its values in order. *)
Theorem linearize_json_flat (items : list (string * Json.json)) :
  Forall (λ kv, Json.is_dict kv.2 = false ∧ Json.is_list kv.2 = false) items →
  Json.linearize_json (Json.JDict items) = (items.*1, items.*2).
Proof.
  intros Hflat. rewrite linearize_json_dict.
  induction items as [|[key value] items IH]; [done|].
  apply Forall_cons in Hflat as [[Hd Hl] Hflat].
  rewrite linearize_items_cons, (IH Hflat). cbn [fst snd] in *.
  by destruct value.
Qed.

Lemma linearize_list_scalars key (l : list Json.json) i :
  Forall (λ item, Json.is_dict item = false) l →
  Json.linearize_list key i l
  = (imap (λ j _, String.append key (String.append ";" (pretty (i + j)%nat))) l, l).
Proof.
  revert i. induction l as [|item l IH]; intros i Hl; [done|].
  apply Forall_cons in Hl as [Hitem Hl].
  rewrite linearize_list_cons, (IH (S i) Hl). cbn [fst snd imap].
  assert (Json.linearize_item key i item
          = ([String.append key (String.append ";" (pretty i))], [item])) as ->
    by (by destruct item).
  cbn [fst snd app]. rewrite Nat.add_0_r. f_equal. f_equal.
  apply imap_ext. intros j x _. cbn. by rewrite Nat.add_succ_r.
Qed.

(** X28. Only dicts are opened inside a list: for a key whose value is a
    list without dicts, [linearize_json] gives one key per item, the key
    followed by [;] and the index of the item, and the items themselves as
    values, lists among them included. *)
Theorem linearize_json_list_of_scalars (key : string) (l : list Json.json) :
  Forall (λ item, Json.is_dict item = false) l →
  Json.linearize_json (Json.JDict [(key, Json.JList l)])
  = (imap (λ i _, String.append key (String.append ";" (pretty i))) l, l).
Proof.
  intros Hl. rewrite linearize_json_dict, linearize_items_cons.
  cbn [Json.linearize_value Json.linearize_items fst snd].
  rewrite (linearize_list_scalars key l 0 Hl). cbn [fst snd].
  by rewrite !app_nil_r.
Qed.

(** ** [Token.time_left_str] *)

Lemma Qfloor_ge (z : Z) (x : Q) : (inject_Z z <= x)%Q → (z <= Qfloor x)%Z.
Proof. intros H. rewrite <- (Qfloor_Z z). by apply Qfloor_resp_le. Qed.

(** X29. [time_left_str] answers [Expired] for a token that [is_expired],
    and [basically forever] for a token with 100001 hours or more left:
    the hours are counted in whole hours before they are compared with
    100000. *)
Theorem time_left_str_expired_or_forever
        (format_f : nat → Q → string) (self : Token.t) (now : float) :
  (Token.is_expired self now = true →
   Token.time_left_str format_f self now = "Expired")
  ∧ ((360003600 <= Float.to_Q (Token.time_left self now))%Q →
     Token.time_left_str format_f self now = "basically forever").
Proof.
  split.
  - unfold Token.is_expired, Token.time_left_str. cbv zeta. by intros ->.
  - intros Hleft. unfold Token.time_left_str. cbv zeta.
    assert ((Token.time_left self now <=? 0)%float = false) as ->.
    { apply not_true_iff_false. intros H%Binary64.leb_zero_to_Q. lra. }
    set (tl := Float.to_Q (Token.time_left self now)) in *.
    unfold Py.divmod. cbv zeta.
    set (mins := Qfloor (tl / 60)).
    assert (Hmins : (6000060 <= mins)%Z).
    { apply Qfloor_ge. change (inject_Z 6000060) with 6000060%Q.
      apply Qle_shift_div_l; lra. }
    set (hours := Qfloor (inject_Z mins / 60)).
    assert (Hhours : (100001 <= hours)%Z).
    { apply Qfloor_ge. change (inject_Z 100001) with 100001%Q.
      assert (6000060 <= inject_Z mins)%Q
        by (change 6000060%Q with (inject_Z 6000060); by rewrite <- Zle_Qle).
      apply Qle_shift_div_l; lra. }
    assert (Qle_bool (inject_Z hours) 1e5 = false) as ->; [|done].
    apply not_true_iff_false. rewrite Qle_bool_iff.
    assert (100001 <= inject_Z hours)%Q
      by (change 100001%Q with (inject_Z 100001); by rewrite <- Zle_Qle).
    intros Hle. assert (1e5 == 100000)%Q by reflexivity. lra.
Qed.

Lemma time_left_str_expired_or_forever_witness :
  Token.time_left_str (λ _ _, "?")
    (Token.init Mock.TOKEN_EXPIRATIONS "sess-abc" Mock.SESSION_TOKEN 1000%float) 2000%float
  = "basically forever".
Proof.
  apply (proj2 (time_left_str_expired_or_forever (λ _ _, "?")
                  (Token.init Mock.TOKEN_EXPIRATIONS "sess-abc" Mock.SESSION_TOKEN 1000%float)
                  2000%float)).
  vm_compute. discriminate.
Defined.

(** ** [NSO.parse_npf_uri] *)

Lemma split_without sep (s : string) :
  Py.contains sep s = false → Py.split sep s = [s].
Proof.
  induction s as [|c s IH]; [done|]. simpl.
  intros H. apply orb_false_elim in H as [Hc Hs]. by rewrite Hc, (IH Hs).
Qed.

Lemma split_app sep (a b : string) :
  Py.contains sep a = false →
  Py.split sep (String.append a (String sep b)) = a :: Py.split sep b.
Proof.
  induction a as [|c a IH]; simpl.
  - intros _. by rewrite Ascii.eqb_refl.
  - intros H. apply orb_false_elim in H as [Hc Ha]. by rewrite Hc, (IH Ha).
Qed.

Lemma contains_app sep (a b : string) :
  Py.contains sep (String.append a b) = Py.contains sep a || Py.contains sep b.
Proof.
  induction a as [|c a IH]; simpl; [done|].
  by rewrite IH, orb_assoc.
Qed.

(** X30. [parse_npf_uri] gives back the session token code of a URI whose
    second part between [&] is [session_token_code=] followed by the code;
    a URI without [&] raises [IndexError]. *)
Theorem parse_npf_uri_extracts_code (before code rest : string) :
  Py.contains "&" before = false →
  Py.contains "&" code = false →
  S3SNso.parse_npf_uri
    (String.append before
       (String.append "&session_token_code="
          (String.append code (String.append "&" rest))))
  = Return code
  ∧ S3SNso.parse_npf_uri before = Raise (OtherException "IndexError").
Proof.
  intros Hb Hc. unfold S3SNso.parse_npf_uri. split.
  - change (String.append "&session_token_code=" ?x)
      with (String "&" (String.append "session_token_code=" x)).
    rewrite (split_app _ _ _ Hb).
    change (String.append "session_token_code="
              (String.append code (String.append "&" rest)))
      with (String.append (String.append "session_token_code=" code) (String "&" rest)).
    rewrite split_app; [done|].
    rewrite contains_app, Hc. reflexivity.
  - by rewrite (split_without _ _ Hb).
Qed.

Lemma parse_npf_uri_extracts_code_witness :
  S3SNso.parse_npf_uri
    "npf71b963c1b7b6d119://auth#session_state=abc&session_token_code=eyJhbGciOi&state=xyz"
  = Return "eyJhbGciOi"
  ∧ S3SNso.parse_npf_uri "npf71b963c1b7b6d119://auth#session_state=abc"
    = Raise (OtherException "IndexError").
Proof.
  apply (parse_npf_uri_extracts_code "npf71b963c1b7b6d119://auth#session_state=abc"
           "eyJhbGciOi" "state=xyz"); reflexivity.
Defined.

(** ** The added properties on the test double *)

Local Abbreviation mock_test_tokens now script status :=
  (TokenManager.test_tokens Mock.SESSION_TOKEN Mock.GTOKEN Mock.BULLET_TOKEN
     Mock.TOKEN_EXPIRATIONS (Mock.time_at now) (Mock.get_gtoken "gtoken-1")
     (Mock.get_bullet_token script) (Mock.post status)).
(** The manager with the Session token, a gtoken and a bullet token added by
    hand: no data. *)
Local Abbreviation without_language :=
  (mock_add_token 1000%float (Str "bullet-1") (Some Mock.BULLET_TOKEN) None
     (mock_add_token 1000%float (Str "gtoken-1") (Some Mock.GTOKEN) None with_session).2).2.
(** Collaborators that fail. *)
Local Abbreviation get_gtoken_without_user_info :=
  (λ (h : list event) (n : NSO), (Return "gtoken-1", n)).
Local Abbreviation get_gtoken_down :=
  (λ (h : list event) (n : NSO),
     (@Raise string (OtherException "ConnectionError"), n)).
Local Abbreviation get_bullet_token_down :=
  (λ (h : list event) (n : NSO),
     (@Raise string (OtherException "ConnectionError"), n)).
Local Abbreviation env_var_names :=
  [("session_token", "SN3S_SESSION_TOKEN"); ("gtoken", "SN3S_GTOKEN");
   ("bullet_token", "SN3S_BULLET_TOKEN")].
Local Abbreviation mock_from_env environ :=
  (TokenManager.from_env Mock.SESSION_TOKEN Mock.GTOKEN Mock.BULLET_TOKEN
     Mock.TOKEN_EXPIRATIONS (Mock.time_at 1000%float) Mock.new_instance
     (Mock.get_gtoken "gtoken-1") (Mock.get_bullet_token ["bullet-1"]) (Mock.post 200%Z)
     environ env_var_names).
Local Abbreviation mock_load environ :=
  (TokenManager.load Mock.SESSION_TOKEN Mock.GTOKEN Mock.BULLET_TOKEN
     Mock.TOKEN_EXPIRATIONS (Mock.time_at 1000%float) Mock.new_instance
     (Mock.get_gtoken "gtoken-1") (Mock.get_bullet_token ["bullet-1"]) (Mock.post 200%Z)
     environ env_var_names).
Local Abbreviation mock_from_text_file json_files :=
  (TokenManager.from_text_file Mock.SESSION_TOKEN Mock.GTOKEN Mock.BULLET_TOKEN
     Mock.TOKEN_EXPIRATIONS (Mock.time_at 1000%float) Mock.new_instance
     (Mock.get_gtoken "gtoken-1") (Mock.get_bullet_token ["bullet-1"]) (Mock.post 200%Z)
     json_files).

Lemma generate_gtoken_returns_witness :
  ∃ gtoken n' user_info country language,
    Mock.get_gtoken "gtoken-1" (history (world with_session)) (nso (self with_session))
    = (Return gtoken, n')
    ∧ _user_info n' = Some user_info
    ∧ user_info !! "country" = Some country
    ∧ user_info !! "language" = Some language
    ∧ Token.token <$> _tokens (self with_gtoken_1000) !! Mock.GTOKEN = Some gtoken
    ∧ _gtoken (nso (self with_gtoken_1000)) = Some gtoken
    ∧ _data (self with_gtoken_1000)
      = <["language" := language]> (<["country" := country]> (_data (self with_session)))
    ∧ (∀ k, k ≠ Mock.GTOKEN →
            _tokens (self with_gtoken_1000) !! k = _tokens (self with_session) !! k).
Proof.
  apply (TokenManager.generate_gtoken_returns Mock.SESSION_TOKEN Mock.GTOKEN
           Mock.TOKEN_EXPIRATIONS (Mock.time_at 1000%float) (Mock.get_gtoken "gtoken-1")
           with_session with_gtoken_1000).
  vm_compute. reflexivity.
Defined.

Lemma generate_gtoken_without_user_info_witness :
  (TokenManager.generate_gtoken Mock.SESSION_TOKEN Mock.GTOKEN Mock.TOKEN_EXPIRATIONS
     (Mock.time_at 1000%float) get_gtoken_without_user_info with_session).1
  = Raise (NintendoException "Unable to get user info. Gtoken may be invalid.")
  ∧ Token.token <$> _tokens (self (TokenManager.generate_gtoken Mock.SESSION_TOKEN
                                      Mock.GTOKEN Mock.TOKEN_EXPIRATIONS
                                      (Mock.time_at 1000%float) get_gtoken_without_user_info
                                      with_session).2) !! Mock.GTOKEN
    = Some "gtoken-1"
  ∧ _data (self (TokenManager.generate_gtoken Mock.SESSION_TOKEN Mock.GTOKEN
                   Mock.TOKEN_EXPIRATIONS (Mock.time_at 1000%float)
                   get_gtoken_without_user_info with_session).2)
    = _data (self with_session).
Proof.
  apply (TokenManager.generate_gtoken_without_user_info Mock.SESSION_TOKEN Mock.GTOKEN
           Mock.TOKEN_EXPIRATIONS (Mock.time_at 1000%float) get_gtoken_without_user_info
           with_session "gtoken-1" (nso (self with_session))).
  - vm_compute. eauto.
  - reflexivity.
  - vm_compute. discriminate.
Defined.

Lemma generate_bullet_token_other_exception_witness :
  (TokenManager.generate_bullet_token Mock.SESSION_TOKEN Mock.GTOKEN Mock.BULLET_TOKEN
     Mock.TOKEN_EXPIRATIONS (Mock.time_at 1000%float) (Mock.get_gtoken "gtoken-1")
     get_bullet_token_down with_gtoken_1000).1
  = Raise (OtherException "ConnectionError")
  ∧ bullet_calls (TokenManager.generate_bullet_token Mock.SESSION_TOKEN Mock.GTOKEN
                    Mock.BULLET_TOKEN Mock.TOKEN_EXPIRATIONS (Mock.time_at 1000%float)
                    (Mock.get_gtoken "gtoken-1") get_bullet_token_down with_gtoken_1000).2
    = (bullet_calls with_gtoken_1000 + 1)%nat
  ∧ _tokens (self (TokenManager.generate_bullet_token Mock.SESSION_TOKEN Mock.GTOKEN
                     Mock.BULLET_TOKEN Mock.TOKEN_EXPIRATIONS (Mock.time_at 1000%float)
                     (Mock.get_gtoken "gtoken-1") get_bullet_token_down
                     with_gtoken_1000).2)
    = _tokens (self with_gtoken_1000).
Proof.
  apply (TokenManager.generate_bullet_token_other_exception Mock.SESSION_TOKEN Mock.GTOKEN
           Mock.BULLET_TOKEN Mock.TOKEN_EXPIRATIONS (Mock.time_at 1000%float)
           (Mock.get_gtoken "gtoken-1") get_bullet_token_down
           with_gtoken_1000 with_gtoken_1000 (OtherException "ConnectionError")
           (nso (self with_gtoken_1000))).
  - split; [vm_compute; eauto|]. left. split; vm_compute; reflexivity.
  - reflexivity.
  - reflexivity.
Defined.

Lemma generate_bullet_token_leaves_empty_token_witness :
  (mock_generate_bullet_token 1000%float [""; ""] with_gtoken_1000).1
  = Raise TokenManager.bullet_error
  ∧ Token.token <$> _tokens (self (mock_generate_bullet_token 1000%float [""; ""]
                                      with_gtoken_1000).2) !! Mock.BULLET_TOKEN
    = Some ""
  ∧ (TokenManager.token_is_valid Mock.BULLET_TOKEN
       (mock_generate_bullet_token 1000%float [""; ""] with_gtoken_1000).2).1
    = Return false.
Proof.
  apply (TokenManager.generate_bullet_token_leaves_empty_token Mock.SESSION_TOKEN
           Mock.GTOKEN Mock.BULLET_TOKEN Mock.TOKEN_EXPIRATIONS (Mock.time_at 1000%float)
           (Mock.get_gtoken "gtoken-1") (Mock.get_bullet_token [""; ""])
           with_gtoken_1000 with_gtoken_1000 (nso (self with_gtoken_1000))
           (nso (self with_gtoken_1000))).
  - vm_compute. discriminate.
  - split; [vm_compute; eauto|]. left. split; vm_compute; reflexivity.
  - vm_compute. reflexivity.
  - vm_compute. eauto.
  - vm_compute. reflexivity.
Defined.

Lemma generate_all_tokens_two_calls_witness :
  (mock_generate_all_tokens 1000%float ["bullet-1"] with_gtoken_1000).1 = Return tt
  ∧ history (world (mock_generate_all_tokens 1000%float ["bullet-1"] with_gtoken_1000).2)
    = history (world with_gtoken_1000)
      ++ [GetGtoken (nso (self with_gtoken_1000));
          GetBulletToken (nso (self (mock_generate_gtoken 1000%float with_gtoken_1000).2))]
  ∧ Token.token <$> _tokens (self (mock_generate_all_tokens 1000%float ["bullet-1"]
                                      with_gtoken_1000).2) !! Mock.BULLET_TOKEN
    = Some "bullet-1".
Proof.
  apply (TokenManager.generate_all_tokens_two_calls Mock.SESSION_TOKEN Mock.GTOKEN
           Mock.BULLET_TOKEN Mock.TOKEN_EXPIRATIONS (Mock.time_at 1000%float)
           (Mock.get_gtoken "gtoken-1") (Mock.get_bullet_token ["bullet-1"])
           with_gtoken_1000 (mock_generate_gtoken 1000%float with_gtoken_1000).2
           "bullet-1" (nso (self (mock_generate_gtoken 1000%float with_gtoken_1000).2))).
  - vm_compute. reflexivity.
  - vm_compute. reflexivity.
  - discriminate.
Defined.

Lemma test_tokens_without_session_witness :
  mock_test_tokens 1000%float ["bullet-1"] 200%Z None fresh
  = (Raise (ValueError "Token of type session_token not found."), fresh).
Proof.
  apply (TokenManager.test_tokens_without_session Mock.SESSION_TOKEN Mock.GTOKEN
           Mock.BULLET_TOKEN Mock.TOKEN_EXPIRATIONS (Mock.time_at 1000%float)
           (Mock.get_gtoken "gtoken-1") (Mock.get_bullet_token ["bullet-1"])
           (Mock.post 200%Z) None fresh).
  reflexivity.
Defined.

Lemma test_tokens_without_language_witness :
  mock_test_tokens 1000%float ["bullet-1"] 200%Z None without_language
  = (Raise (KeyError "language"), without_language).
Proof.
  apply (TokenManager.test_tokens_without_language Mock.SESSION_TOKEN Mock.GTOKEN
           Mock.BULLET_TOKEN Mock.TOKEN_EXPIRATIONS (Mock.time_at 1000%float)
           (Mock.get_gtoken "gtoken-1") (Mock.get_bullet_token ["bullet-1"])
           (Mock.post 200%Z) None without_language
           (Token.init Mock.TOKEN_EXPIRATIONS "sess-abc" Mock.SESSION_TOKEN 1000%float)
           (Token.init Mock.TOKEN_EXPIRATIONS "gtoken-1" Mock.GTOKEN 1000%float)
           (Token.init Mock.TOKEN_EXPIRATIONS "bullet-1" Mock.BULLET_TOKEN 1000%float)).
  - vm_compute. reflexivity.
  - vm_compute. reflexivity.
  - discriminate.
  - vm_compute. reflexivity.
  - discriminate.
  - vm_compute. reflexivity.
Defined.

Lemma test_tokens_probe_fails_witness :
  mock_test_tokens 1000%float ["bullet-2"] 401%Z None with_all_tokens
  = mock_generate_all_tokens 1000%float ["bullet-2"]
      (set_world (log_event (PostHomeQuery "bullet-1" "en-US" None "gtoken-1"))
         with_all_tokens).
Proof.
  apply (TokenManager.test_tokens_probe_fails Mock.SESSION_TOKEN Mock.GTOKEN
           Mock.BULLET_TOKEN Mock.TOKEN_EXPIRATIONS (Mock.time_at 1000%float)
           (Mock.get_gtoken "gtoken-1") (Mock.get_bullet_token ["bullet-2"])
           (Mock.post 401%Z) None with_all_tokens
           (Token.init Mock.TOKEN_EXPIRATIONS "sess-abc" Mock.SESSION_TOKEN 1000%float)
           (Token.init Mock.TOKEN_EXPIRATIONS "gtoken-1" Mock.GTOKEN 1000%float)
           (Token.init Mock.TOKEN_EXPIRATIONS "bullet-1" Mock.BULLET_TOKEN 1000%float)
           "en-US").
  - vm_compute. reflexivity.
  - vm_compute. reflexivity.
  - discriminate.
  - vm_compute. reflexivity.
  - discriminate.
  - vm_compute. reflexivity.
Defined.

Lemma test_tokens_derives_gtoken_first_witness :
  TokenManager.test_tokens Mock.SESSION_TOKEN Mock.GTOKEN Mock.BULLET_TOKEN
    Mock.TOKEN_EXPIRATIONS (Mock.time_at 1000%float) get_gtoken_down
    (Mock.get_bullet_token ["bullet-1"]) (Mock.post 200%Z) None with_session
  = (Raise (OtherException "ConnectionError"),
     (TokenManager.generate_gtoken Mock.SESSION_TOKEN Mock.GTOKEN Mock.TOKEN_EXPIRATIONS
        (Mock.time_at 1000%float) get_gtoken_down with_session).2)
  ∧ history (world (TokenManager.generate_gtoken Mock.SESSION_TOKEN Mock.GTOKEN
                      Mock.TOKEN_EXPIRATIONS (Mock.time_at 1000%float) get_gtoken_down
                      with_session).2)
    = history (world with_session) ++ [GetGtoken (nso (self with_session))].
Proof.
  apply (TokenManager.test_tokens_derives_gtoken_first Mock.SESSION_TOKEN Mock.GTOKEN
           Mock.BULLET_TOKEN Mock.TOKEN_EXPIRATIONS (Mock.time_at 1000%float) get_gtoken_down
           (Mock.get_bullet_token ["bullet-1"]) (Mock.post 200%Z) None with_session
           (TokenManager.generate_gtoken Mock.SESSION_TOKEN Mock.GTOKEN
              Mock.TOKEN_EXPIRATIONS (Mock.time_at 1000%float) get_gtoken_down with_session).2
           (Token.init Mock.TOKEN_EXPIRATIONS "sess-abc" Mock.SESSION_TOKEN 1000%float)
           (OtherException "ConnectionError")).
  - vm_compute. reflexivity.
  - vm_compute. reflexivity.
  - vm_compute. reflexivity.
Defined.

(** A file whose [tokens] section has a gtoken only. *)
Local Abbreviation gtoken_only_world :=
  {| history := [];
     files := {[ "tokens.ini" :=
                   ({[ "tokens" := {[ "gtoken" := "gtoken-1" ]} ]} : ConfigDoc) ]} |}.


Lemma save_frame_witness :
  self (mock_save None with_all_tokens).2 = self with_all_tokens
  ∧ history (world (mock_save None with_all_tokens).2) = history (world with_all_tokens)
  ∧ files (world (mock_save None with_all_tokens).2) !! "tokens.ini"
    = files (world with_all_tokens) !! "tokens.ini".
Proof.
  destruct (TokenManager.save_frame Mock.version None with_all_tokens) as (H1 & H2 & H3).
  split; [exact H1|]. split; [exact H2|]. apply H3. vm_compute. discriminate.
Defined.


Lemma add_token_other_kinds_witness :
  (TokenManager.get Mock.BULLET_TOKEN
     (mock_add_token 1000%float (Str "bullet-1") (Some Mock.BULLET_TOKEN) None
        with_gtoken_1000).2).1
  = Return "bullet-1"
  ∧ (TokenManager.get Mock.GTOKEN
       (mock_add_token 1000%float (Str "bullet-1") (Some Mock.BULLET_TOKEN) None
          with_gtoken_1000).2).1
    = (TokenManager.get Mock.GTOKEN with_gtoken_1000).1.
Proof.
  destruct (TokenManager.add_token_other_kinds Mock.GTOKEN Mock.TOKEN_EXPIRATIONS
              (Mock.time_at 1000%float) with_gtoken_1000 "bullet-1" Mock.BULLET_TOKEN None)
    as (H1 & _ & H3).
  split; [exact H1|]. apply H3. discriminate.
Defined.

Lemma from_env_without_session_variable_witness :
  mock_from_env ({[ "SN3S_GTOKEN" := "gtoken-1" ]} : gmap string string) Mock.empty_world
  = (Raise (ValueError "Session token environment variable not set."), Mock.empty_world).
Proof.
  apply (TokenManager.from_env_without_session_variable
           Mock.SESSION_TOKEN Mock.GTOKEN Mock.BULLET_TOKEN Mock.TOKEN_EXPIRATIONS
           (Mock.time_at 1000%float) Mock.new_instance
           (Mock.get_gtoken "gtoken-1") (Mock.get_bullet_token ["bullet-1"])
           (Mock.post 200%Z) ({[ "SN3S_GTOKEN" := "gtoken-1" ]} : gmap string string)
           env_var_names "SN3S_SESSION_TOKEN" Mock.empty_world).
  - apply list_elem_of_here.
  - vm_compute. reflexivity.
Defined.

Lemma from_env_result_witness :
  ∃ m w',
    mock_from_env ({[ "SN3S_SESSION_TOKEN" := "sess-abc" ]} : gmap string string)
      Mock.empty_world
    = (Return m, w')
    ∧ _origin m = Some ("env", None)
    ∧ is_Some (_tokens m !! Mock.SESSION_TOKEN).
Proof.
  eexists _, _. split; [reflexivity|].
  edestruct (TokenManager.from_env_result
              Mock.SESSION_TOKEN Mock.GTOKEN Mock.BULLET_TOKEN Mock.TOKEN_EXPIRATIONS
              (Mock.time_at 1000%float) Mock.new_instance
              (Mock.get_gtoken "gtoken-1") (Mock.get_bullet_token ["bullet-1"])
              (Mock.post 200%Z) ({[ "SN3S_SESSION_TOKEN" := "sess-abc" ]} : gmap string string)
              env_var_names Mock.empty_world) as [H1 H2]; [reflexivity|].
  split; [exact H1|].
  apply (H2 Mock.SESSION_TOKEN "SN3S_SESSION_TOKEN").
  - apply list_elem_of_here.
  - vm_compute. eauto.
Defined.

Lemma from_text_file_without_session_witness :
  mock_from_text_file
    ({[ "config.txt" := ({[ "gtoken" := "gtoken-1" ]} : gmap string string) ]}
     : gmap string (gmap string string))
    "config.txt" Mock.empty_world
  = (Raise (ValueError "Session token not found in text file."), Mock.empty_world).
Proof.
  simple refine (TokenManager.from_text_file_without_session
                   Mock.SESSION_TOKEN Mock.GTOKEN Mock.BULLET_TOKEN Mock.TOKEN_EXPIRATIONS
                   (Mock.time_at 1000%float) Mock.new_instance
                   (Mock.get_gtoken "gtoken-1") (Mock.get_bullet_token ["bullet-1"])
                   (Mock.post 200%Z)
                   ({[ "config.txt" := ({[ "gtoken" := "gtoken-1" ]} : gmap string string) ]}
                    : gmap string (gmap string string))
                   "config.txt" Mock.empty_world
                   ({[ "gtoken" := "gtoken-1" ]} : gmap string string) _ _);
    vm_compute; reflexivity.
Defined.

Lemma from_text_file_malformed_acc_loc_witness :
  ∃ msg,
    mock_from_text_file
      ({[ "config.txt" := ({[ "session_token" := "sess-abc"; "acc_loc" := "en-US" ]}
                           : gmap string string) ]}
       : gmap string (gmap string string))
      "config.txt" Mock.empty_world
    = (Raise (ValueError msg), Mock.empty_world).
Proof.
  simple refine (TokenManager.from_text_file_malformed_acc_loc
                   Mock.SESSION_TOKEN Mock.GTOKEN Mock.BULLET_TOKEN Mock.TOKEN_EXPIRATIONS
                   (Mock.time_at 1000%float) Mock.new_instance
                   (Mock.get_gtoken "gtoken-1") (Mock.get_bullet_token ["bullet-1"])
                   (Mock.post 200%Z)
                   ({[ "config.txt" := ({[ "session_token" := "sess-abc";
                                           "acc_loc" := "en-US" ]} : gmap string string) ]}
                    : gmap string (gmap string string))
                   "config.txt" Mock.empty_world
                   ({[ "session_token" := "sess-abc"; "acc_loc" := "en-US" ]}
                    : gmap string string)
                   "sess-abc" "en-US" _ _ _ _);
    vm_compute; (reflexivity || discriminate).
Defined.

Lemma from_text_file_result_witness :
  ∃ m w',
    mock_from_text_file
      ({[ "config.txt" := ({[ "session_token" := "sess-abc"; "acc_loc" := "en-US|US";
                              "gtoken" := "gtoken-1"; "bullettoken" := "bullet-1" ]}
                           : gmap string string) ]}
       : gmap string (gmap string string))
      "config.txt" Mock.empty_world
    = (Return m, w')
    ∧ _origin m = Some ("text_file", Some "config.txt")
    ∧ is_Some (_tokens m !! Mock.SESSION_TOKEN).
Proof.
  eexists _, _. split; [reflexivity|].
  edestruct (TokenManager.from_text_file_result
              Mock.SESSION_TOKEN Mock.GTOKEN Mock.BULLET_TOKEN Mock.TOKEN_EXPIRATIONS
              (Mock.time_at 1000%float) Mock.new_instance
              (Mock.get_gtoken "gtoken-1") (Mock.get_bullet_token ["bullet-1"])
              (Mock.post 200%Z)
              ({[ "config.txt" := ({[ "session_token" := "sess-abc";
                                      "acc_loc" := "en-US|US";
                                      "gtoken" := "gtoken-1";
                                      "bullettoken" := "bullet-1" ]}
                                   : gmap string string) ]}
               : gmap string (gmap string string))
              "config.txt" Mock.empty_world) as (H1 & H2 & _); [reflexivity|].
  split; [exact H1 | exact H2].
Defined.

Lemma load_env_without_session_variable_witness :
  mock_load ({[ "SN3S_GTOKEN" := "gtoken-1" ]} : gmap string string) tokens_only_world
  = (Raise (ValueError "Session token environment variable not set."), tokens_only_world).
Proof.
  apply (TokenManager.load_env_without_session_variable
           Mock.SESSION_TOKEN Mock.GTOKEN Mock.BULLET_TOKEN Mock.TOKEN_EXPIRATIONS
           (Mock.time_at 1000%float) Mock.new_instance
           (Mock.get_gtoken "gtoken-1") (Mock.get_bullet_token ["bullet-1"])
           (Mock.post 200%Z) ({[ "SN3S_GTOKEN" := "gtoken-1" ]} : gmap string string)
           env_var_names tokens_only_world Mock.GTOKEN "SN3S_GTOKEN" "SN3S_SESSION_TOKEN").
  - vm_compute. reflexivity.
  - apply list_elem_of_further, list_elem_of_here.
  - vm_compute. reflexivity.
  - apply list_elem_of_here.
  - vm_compute. reflexivity.
Defined.

Lemma load_without_environment_witness :
  mock_load ({[ "SN3S_SESSION_TOKEN" := "" ]} : gmap string string) Mock.empty_world
  = (Raise (ValueError
              "No tokens found. Please create a .splatnet3_scraper file, set environment variables, or create a tokens.ini file."),
     Mock.empty_world).
Proof.
  apply (TokenManager.load_without_environment
           Mock.SESSION_TOKEN Mock.GTOKEN Mock.BULLET_TOKEN Mock.TOKEN_EXPIRATIONS
           (Mock.time_at 1000%float) Mock.new_instance
           (Mock.get_gtoken "gtoken-1") (Mock.get_bullet_token ["bullet-1"])
           (Mock.post 200%Z) ({[ "SN3S_SESSION_TOKEN" := "" ]} : gmap string string)
           env_var_names Mock.empty_world).
  - vm_compute. reflexivity.
  - intros token var Hin.
    apply elem_of_cons in Hin as [Hin|Hin];
      [injection Hin as _ ->; right; vm_compute; reflexivity|].
    apply elem_of_cons in Hin as [Hin|Hin];
      [injection Hin as _ ->; left; vm_compute; reflexivity|].
    apply elem_of_cons in Hin as [Hin|Hin];
      [injection Hin as _ ->; left; vm_compute; reflexivity|].
    by apply elem_of_nil in Hin.
Defined.

(** A minting call that always fails with the exception [retry] catches. *)
Local Abbreviation always_down :=
  ((λ s, (Raise (SplatNetException "down"),
          set_world (log_event (GetBulletToken (nso (self s)))) s)) : M unit).

Lemma retry_at_most_times_plus_one_witness :
  (bullet_calls (retry 3 is_SplatNetException always_down fresh).2
   ≤ bullet_calls fresh + (3 + 1))%nat.
Proof.
  apply (retry_at_most_times_plus_one is_SplatNetException always_down bullet_calls 3 fresh).
  intros s. unfold bullet_calls. cbn [snd set_world log_event world history].
  rewrite TokenManager.calls_snoc. cbn [is_GetBulletToken]. lia.
Defined.

Lemma retry_raises_after_last_try_witness :
  (∃ e, (retry 3 is_SplatNetException always_down fresh).1 = Raise e
        ∧ is_SplatNetException e = true)
  ∧ bullet_calls (retry 3 is_SplatNetException always_down fresh).2
    = (bullet_calls fresh + (3 + 1))%nat.
Proof.
  apply (retry_raises_after_last_try is_SplatNetException always_down bullet_calls 3 fresh).
  - intros s. unfold bullet_calls. cbn [snd set_world log_event world history].
    rewrite TokenManager.calls_snoc. reflexivity.
  - intros s. exists (SplatNetException "down"). split; reflexivity.
Defined.

Lemma retry_stops_at_first_outcome_witness :
  retry 5 is_SplatNetException
    (TokenManager.generate_bullet_token_func Mock.SESSION_TOKEN Mock.GTOKEN
       Mock.BULLET_TOKEN Mock.TOKEN_EXPIRATIONS (Mock.time_at 1000%float)
       (Mock.get_gtoken "gtoken-1") (Mock.get_bullet_token [""; "bullet-2"]))
    with_gtoken_1000
  = (Return tt,
     (mock_generate_bullet_token 1000%float [""; "bullet-2"] with_gtoken_1000).2).
Proof.
  apply (retry_stops_at_first_outcome is_SplatNetException
           (TokenManager.generate_bullet_token_func Mock.SESSION_TOKEN Mock.GTOKEN
              Mock.BULLET_TOKEN Mock.TOKEN_EXPIRATIONS (Mock.time_at 1000%float)
              (Mock.get_gtoken "gtoken-1") (Mock.get_bullet_token [""; "bullet-2"]))
           5 1 with_gtoken_1000
           (TokenManager.generate_bullet_token_func Mock.SESSION_TOKEN Mock.GTOKEN
              Mock.BULLET_TOKEN Mock.TOKEN_EXPIRATIONS (Mock.time_at 1000%float)
              (Mock.get_gtoken "gtoken-1") (Mock.get_bullet_token [""; "bullet-2"])
              with_gtoken_1000).2).
  - apply nsteps_once. exists TokenManager.bullet_error. split; vm_compute; reflexivity.
  - vm_compute. reflexivity.
  - exact I.
  - lia.
Defined.

Lemma linearize_json_flat_witness :
  Json.linearize_json
    (Json.JDict [("id", Json.JStr "abc"); ("rank", Json.JInt 3%Z); ("win", Json.JBool true)])
  = (["id"; "rank"; "win"], [Json.JStr "abc"; Json.JInt 3%Z; Json.JBool true]).
Proof.
  apply (linearize_json_flat
           [("id", Json.JStr "abc"); ("rank", Json.JInt 3%Z); ("win", Json.JBool true)]).
  repeat constructor.
Defined.

Lemma linearize_json_list_of_scalars_witness :
  Json.linearize_json
    (Json.JDict [("weapons", Json.JList [Json.JStr "a"; Json.JList [Json.JStr "b"]])])
  = (["weapons;0"; "weapons;1"], [Json.JStr "a"; Json.JList [Json.JStr "b"]]).
Proof.
  apply (linearize_json_list_of_scalars "weapons"
           [Json.JStr "a"; Json.JList [Json.JStr "b"]]).
  repeat constructor.
Defined.
